(** * Catalog_of_Repos: the preview generator [generate_preview_script.js]

    The script lists the repositories of one owner through a paginated REST
    endpoint, opens each repository's deployed page in a headless browser and
    stores one clipped screenshot per repository in a directory that is
    wiped at the start of the run.

    The script is a sequence of awaited calls to three outside systems (the
    listing endpoint, the browser, the filesystem).  It is embedded here as
    a program in a small monad with
      - a store (the output directory's content, the local [browser] of
        [main], the number of page contexts opened so far),
      - a trace of the outside calls and console lines the program emits,
      - JavaScript's completions: normal, thrown, [process.exit], and
        unfinished (the [while] loop of the lister has no bound of its own).
    What the outside systems answer is an [Env]: every awaited call may
    resolve or reject. *)

From Stdlib Require Import String Ascii List Arith Lia DecimalString.
From stdpp Require Import gmap strings list.

(** ** JavaScript values the script relies on *)

Definition dquote : ascii := "034"%char.
Definition newline : ascii := "010"%char.

(** Template literals print numbers in decimal. *)
Definition num (n : nat) : string := NilEmpty.string_of_uint (Nat.to_uint n).

(** [String.prototype.toLowerCase] on the ASCII range. *)
Definition lower_ascii (c : ascii) : ascii :=
  let n := nat_of_ascii c in
  if ((65 <=? n) && (n <=? 90))%nat then ascii_of_nat (n + 32) else c.

Fixpoint toLowerCase (s : string) : string :=
  match s with
  | EmptyString => EmptyString
  | String c s' => String (lower_ascii c) (toLowerCase s')
  end.

(** [s.startsWith(p)] *)
Fixpoint startsWith (s p : string) {struct p} : bool :=
  match p with
  | EmptyString => true
  | String a p' =>
      match s with
      | EmptyString => false
      | String b s' => Ascii.eqb a b && startsWith s' p'
      end
  end.

(** [s.includes(sub)]: [sub] occurs in [s] at some position. *)
Fixpoint includes (s sub : string) : bool :=
  startsWith s sub
  || match s with
     | EmptyString => false
     | String _ s' => includes s' sub
     end.

(** Truthiness of a value that is a string, [null] or [undefined]. *)
Definition truthy (v : option string) : bool :=
  match v with
  | None => false
  | Some EmptyString => false
  | Some (String _ _) => true
  end.

(** A thrown value: the script reads [.message] and, in [removeDirectory],
    [.code]. *)
Record JsError := { code : option string; message : string }.

Definition Error (msg : string) : JsError := {| code := None; message := msg |}.

(** The settlement of an awaited promise. *)
Inductive outcome (A : Type) : Type :=
| Resolves (a : A)
| Rejects (e : JsError).
Arguments Resolves {A} a.
Arguments Rejects {A} e.

(** ** The listing endpoint *)

Record Owner := { login : string }.
Record Repo := { owner : Owner; name : string }.

(** What [response.json()] resolves to: an array of repository records, or
    a value on which [data.filter(...).filter(...).map(...)] throws [e]. *)
Inductive JsonBody :=
| JsonRepos (data : list Repo)
| JsonOther (e : JsError).

Record Response := {
  status : nat;
  statusText : string;
  link : option string;        (* response.headers.get('link') *)
  json : outcome JsonBody      (* response.json() *)
}.

(** [response.ok] of the Fetch standard: a status in 200..299. *)
Definition ok (r : Response) : bool :=
  ((200 <=? status r) && (status r <=? 299))%nat.

(** ** The browser *)

(** What [page.goto] resolves to, when not [null]. *)
Record HTTPResponse := { page_ok : bool; page_status : nat }.

(** A page context is named by the number of the [newPage] call that
    made it. *)
Definition Page := nat.

(** How the browser answers the calls made on one page context. *)
Record PageBehaviour := {
  newPage_result : outcome unit;
  setViewport_result : outcome unit;
  goto_result : outcome (option HTTPResponse);
  screenshot_result : outcome unit;
  close_result : outcome unit
}.

Record Browser := {
  pages : nat -> PageBehaviour;      (* the n-th [newPage] call *)
  browser_close_result : outcome unit
}.

(** ** The environment of one run *)

Record Env := {
  ORG_PAT_TOKEN : option string;           (* process.env.ORG_PAT_TOKEN *)
  fetch : string -> outcome Response;      (* fetch(url, { headers }) *)
  rm_result : outcome unit;                (* fs.rm *)
  mkdir_result : outcome unit;             (* fs.mkdir *)
  launch_result : outcome Browser          (* puppeteer.launch *)
}.

(** ** Store and trace *)

Record Store := {
  files : option (gset string);  (* files of the output directory; None: no directory *)
  browser : option Browser;      (* [let browser] of [main] *)
  opened : nat                   (* page contexts opened so far *)
}.

Inductive Level := LLog | LWarn | LError.

Record Clip := { clip_x : nat; clip_y : nat; clip_width : nat; clip_height : nat }.

Inductive Event :=
| Console (l : Level) (args : list string)
| Fetch (url : string) (headers : list (string * string))
| FsRm (path : string) (recursive force : bool)
| FsMkdir (path : string) (recursive : bool)
| Launch (headless : bool) (args : list string)
| NewPage
| SetViewport (p : Page) (width height : nat)
| Goto (p : Page) (url : string) (waitUntil : string) (timeout : N)
| SetTimeout (ms : nat)
| Screenshot (p : Page) (path : string) (fullPage : bool) (clip : Clip)
| PageClose (p : Page)
| BrowserClose.

(** ** Completions and the monad *)

Inductive Completion (A : Type) : Type :=
| Normal (a : A)
| Throw (e : JsError)
| Exit (status : nat)       (* process.exit(status): nothing runs afterwards *)
| Unfinished.               (* the fuel of a loop ran out *)
Arguments Normal {A} a.
Arguments Throw {A} e.
Arguments Exit {A} status.
Arguments Unfinished {A}.

Definition M (A : Type) : Type := Store -> Completion A * Store * list Event.

Definition ret {A} (a : A) : M A := fun s => (Normal a, s, []).

Definition bind {A B} (m : M A) (f : A -> M B) : M B :=
  fun s =>
    match m s with
    | (Normal a, s1, t1) =>
        match f a s1 with (c, s2, t2) => (c, s2, t1 ++ t2) end
    | (Throw e, s1, t1) => (Throw e, s1, t1)
    | (Exit n, s1, t1) => (Exit n, s1, t1)
    | (Unfinished, s1, t1) => (Unfinished, s1, t1)
    end.

Notation "x <- m ;; k" := (bind m (fun x => k))
  (at level 100, m at next level, k at level 200, right associativity).
Notation "m ;; k" := (bind m (fun _ => k))
  (at level 100, k at level 200, right associativity).

Definition throw {A} (e : JsError) : M A := fun s => (Throw e, s, []).
Definition process_exit {A} (n : nat) : M A := fun s => (Exit n, s, []).
Definition unfinished {A} : M A := fun s => (Unfinished, s, []).

(** [try { m } catch (error) { h error }] *)
Definition try_catch {A} (m : M A) (h : JsError -> M A) : M A :=
  fun s =>
    match m s with
    | (Throw e, s1, t1) =>
        match h e s1 with (c, s2, t2) => (c, s2, t1 ++ t2) end
    | r => r
    end.

(** [try { m } finally { fin }]: [fin] runs after a normal or a thrown
    completion of [m]; a completion of [fin] that is not normal replaces
    the one of [m].  After [process.exit] nothing runs. *)
Definition try_finally {A} (m : M A) (fin : M unit) : M A :=
  fun s =>
    match m s with
    | (Normal a, s1, t1) =>
        match fin s1 with
        | (Normal _, s2, t2) => (Normal a, s2, t1 ++ t2)
        | (Throw e, s2, t2) => (Throw e, s2, t1 ++ t2)
        | (Exit n, s2, t2) => (Exit n, s2, t1 ++ t2)
        | (Unfinished, s2, t2) => (Unfinished, s2, t1 ++ t2)
        end
    | (Throw e, s1, t1) =>
        match fin s1 with
        | (Normal _, s2, t2) => (Throw e, s2, t1 ++ t2)
        | (Throw e', s2, t2) => (Throw e', s2, t1 ++ t2)
        | (Exit n, s2, t2) => (Exit n, s2, t1 ++ t2)
        | (Unfinished, s2, t2) => (Unfinished, s2, t1 ++ t2)
        end
    | r => r
    end.

(** One trace entry. *)
Definition emit (e : Event) : M unit := fun s => (Normal tt, s, [e]).

Definition console_log (args : list string) : M unit := emit (Console LLog args).
Definition console_warn (args : list string) : M unit := emit (Console LWarn args).
Definition console_error (args : list string) : M unit := emit (Console LError args).

(** [await p] for a promise settled as [r]. *)
Definition await {A} (r : outcome A) : M A :=
  match r with
  | Resolves a => ret a
  | Rejects e => throw e
  end.

(** An outside call: the call is recorded, then its promise is awaited. *)
Definition call {A} (e : Event) (r : outcome A) : M A := emit e ;; await r.

Definition get_store : M Store := fun s => (Normal s, s, []).
Definition set_files (f : option (gset string)) : M unit :=
  fun s => (Normal tt, {| files := f; browser := browser s; opened := opened s |}, []).
Definition set_browser (b : option Browser) : M unit :=
  fun s => (Normal tt, {| files := files s; browser := b; opened := opened s |}, []).
Definition set_opened (n : nat) : M unit :=
  fun s => (Normal tt, {| files := files s; browser := browser s; opened := n |}, []).

(** ** Filesystem and browser primitives *)

(** [fs.rm(path, { recursive: true, force: true })]: when it resolves the
    tree at [path] is gone.  When it rejects, the tree is taken to be left
    as it was: what a removal deleted before it failed is not modelled. *)
Definition fs_rm (r : outcome unit) (output_dir path : string) : M unit :=
  call (FsRm path true true) r ;;
  if String.eqb path output_dir then set_files None else ret tt.

(** [fs.mkdir(path, { recursive: true })]: an existing directory keeps its
    content, a missing one is created empty. *)
Definition fs_mkdir (r : outcome unit) (output_dir path : string) : M unit :=
  call (FsMkdir path true) r ;;
  s <- get_store ;;
  if String.eqb path output_dir
  then set_files (Some (default ∅ (files s)))
  else ret tt.

(** [page.screenshot({ path, fullPage, clip })]: when it resolves, the file
    at [path] has been written. *)
Definition page_screenshot (r : outcome unit) (p : Page) (path : string)
    (fullPage : bool) (clip : Clip) : M unit :=
  call (Screenshot p path fullPage clip) r ;;
  s <- get_store ;;
  set_files (Some ({[ path ]} ∪ default ∅ (files s))).

(** [browser.newPage()]: the call is counted whether it resolves or not. *)
Definition browser_newPage (b : Browser) : M (Page * PageBehaviour) :=
  s <- get_store ;;
  let p := opened s in
  set_opened (S p) ;;
  call NewPage (newPage_result (pages b p)) ;;
  ret (p, pages b p).

(** ** Sample environments

  Concrete answers of the outside systems, on which the properties below
  are exercised. *)
Module Sample.

(** [path.join] on a directory and a plain file name. *)
Definition join (a b : string) : string := a +:+ "/" +:+ b.

Definition dirname : string := "/repo".

Definition repo (o n : string) : Repo := {| owner := {| login := o |}; name := n |}.

Definition next_link : string :=
  "<https://api.github.com/user/repos?per_page=100&page=2>; rel="
  +:+ String dquote ("next" +:+ String dquote "").

Definition page1 : Response :=
  {| status := 200; statusText := "OK"; link := Some next_link;
     json := Resolves (JsonRepos [repo "DapaLMS1" "A"; repo "dapalms1" "B";
                                  repo "DapaLMS1" "Catalog_of_Repos"]) |}.

Definition page2 : Response :=
  {| status := 200; statusText := "OK"; link := None;
     json := Resolves (JsonRepos [repo "someone" "Z"; repo "DapaLMS1" "C"]) |}.

Definition page2_down : Response :=
  {| status := 500; statusText := "Internal Server Error"; link := None;
     json := Rejects (Error "Unexpected end of JSON input") |}.

Definition url1 : string := "https://api.github.com/user/repos?per_page=100&page=1".
Definition url2 : string := "https://api.github.com/user/repos?per_page=100&page=2".

Definition listing (second : Response) (url : string) : outcome Response :=
  if String.eqb url url1 then Resolves page1
  else if String.eqb url url2 then Resolves second
  else Rejects (Error "fetch failed").

Definition resp (second : Response) (k : nat) : Response :=
  match k with
  | 1 => page1
  | _ => second
  end.

Definition data (k : nat) : list Repo :=
  match k with
  | 1 => [repo "DapaLMS1" "A"; repo "dapalms1" "B"; repo "DapaLMS1" "Catalog_of_Repos"]
  | _ => [repo "someone" "Z"; repo "DapaLMS1" "C"]
  end.

Definition captured : PageBehaviour :=
  {| newPage_result := Resolves tt;
     setViewport_result := Resolves tt;
     goto_result := Resolves (Some {| page_ok := true; page_status := 200 |});
     screenshot_result := Resolves tt;
     close_result := Resolves tt |}.

Definition not_found : PageBehaviour :=
  {| newPage_result := Resolves tt;
     setViewport_result := Resolves tt;
     goto_result := Resolves (Some {| page_ok := false; page_status := 404 |});
     screenshot_result := Resolves tt;
     close_result := Resolves tt |}.

Definition timeout_error : JsError :=
  {| code := None; message := "Navigation timeout of 60000 ms exceeded" |}.

Definition timed_out : PageBehaviour :=
  {| newPage_result := Resolves tt;
     setViewport_result := Resolves tt;
     goto_result := Rejects timeout_error;
     screenshot_result := Resolves tt;
     close_result := Resolves tt |}.

(** A browser whose first page context captures, whose second times out
    and whose others answer 404. *)
Definition chrome (closing : outcome unit) : Browser :=
  {| pages := fun i => match i with
                       | 0 => captured
                       | 1 => timed_out
                       | _ => not_found
                       end;
     browser_close_result := closing |}.

(** [fs.rm] cannot unlink a file of the directory. *)
Definition denied : JsError :=
  {| code := Some "EPERM";
     message := "EPERM: operation not permitted, unlink '/repo/previews/old.png'" |}.

Definition disconnected : JsError :=
  {| code := None; message := "Protocol error: Connection closed." |}.

Definition env_ok : Env :=
  {| ORG_PAT_TOKEN := Some "tok";
     fetch := listing page2;
     rm_result := Resolves tt;
     mkdir_result := Resolves tt;
     launch_result := Resolves (chrome (Resolves tt)) |}.

Definition env_no_token : Env :=
  {| ORG_PAT_TOKEN := None;
     fetch := listing page2;
     rm_result := Resolves tt;
     mkdir_result := Resolves tt;
     launch_result := Resolves (chrome (Resolves tt)) |}.

Definition env_listing_down : Env :=
  {| ORG_PAT_TOKEN := Some "tok";
     fetch := listing page2_down;
     rm_result := Resolves tt;
     mkdir_result := Resolves tt;
     launch_result := Resolves (chrome (Resolves tt)) |}.

Definition env_rm_denied : Env :=
  {| ORG_PAT_TOKEN := Some "tok";
     fetch := listing page2;
     rm_result := Rejects denied;
     mkdir_result := Resolves tt;
     launch_result := Resolves (chrome (Resolves tt)) |}.

Definition env_close_fails : Env :=
  {| ORG_PAT_TOKEN := Some "tok";
     fetch := listing page2;
     rm_result := Resolves tt;
     mkdir_result := Resolves tt;
     launch_result := Resolves (chrome (Rejects disconnected)) |}.

Definition old_file : string := "/repo/previews/old.png".

Definition headers : list (string * string) :=
  [("User-Agent", "GitHub-Actions-Repo-Preview-Generator");
   ("Authorization", "token tok")].

(** What the lister prints and requests on the two-page listing. *)
Definition listed : list Event :=
  [Console LLog ["Fetching all accessible repositories for the token user..."];
   Fetch url1 headers;
   Fetch url2 headers;
   Console LLog ["Found 2 deployable repositories in DapaLMS1."]].

(** An endpoint that serves the first page, marker included, whatever page
    is asked for. *)
Definition env_endless : Env :=
  {| ORG_PAT_TOKEN := Some "tok";
     fetch := fun _ => Resolves page1;
     rm_result := Resolves tt;
     mkdir_result := Resolves tt;
     launch_result := Resolves (chrome (Resolves tt)) |}.

(** A second page with status 200 and the marker, whose body is not JSON. *)
Definition syntax_error : JsError :=
  {| code := None; message := "Unexpected token < in JSON at position 0" |}.

Definition page2_garbled : Response :=
  {| status := 200; statusText := "OK"; link := Some next_link;
     json := Rejects syntax_error |}.

Definition env_garbled : Env :=
  {| ORG_PAT_TOKEN := Some "tok";
     fetch := listing page2_garbled;
     rm_result := Resolves tt;
     mkdir_result := Resolves tt;
     launch_result := Resolves (chrome (Resolves tt)) |}.

Definition env_empty_token : Env :=
  {| ORG_PAT_TOKEN := Some "";
     fetch := listing page2;
     rm_result := Resolves tt;
     mkdir_result := Resolves tt;
     launch_result := Resolves (chrome (Resolves tt)) |}.

Definition env_outage : Env :=
  {| ORG_PAT_TOKEN := Some "tok";
     fetch := fun _ => Rejects (Error "fetch failed");
     rm_result := Resolves tt;
     mkdir_result := Resolves tt;
     launch_result := Resolves (chrome (Resolves tt)) |}.

(** A page context that captures and then fails to close. *)
Definition close_fails : PageBehaviour :=
  {| newPage_result := Resolves tt;
     setViewport_result := Resolves tt;
     goto_result := Resolves (Some {| page_ok := true; page_status := 200 |});
     screenshot_result := Resolves tt;
     close_result := Rejects disconnected |}.

Definition uniform (a : PageBehaviour) : Browser :=
  {| pages := fun _ => a; browser_close_result := Resolves tt |}.

Definition no_space : JsError :=
  {| code := Some "ENOSPC"; message := "ENOSPC: no space left on device, mkdir '/repo/previews'" |}.

Definition env_mkdir_fails : Env :=
  {| ORG_PAT_TOKEN := Some "tok";
     fetch := listing page2;
     rm_result := Resolves tt;
     mkdir_result := Rejects no_space;
     launch_result := Resolves (chrome (Resolves tt)) |}.

Definition env_all_captured : Env :=
  {| ORG_PAT_TOKEN := Some "tok";
     fetch := listing page2;
     rm_result := Resolves tt;
     mkdir_result := Resolves tt;
     launch_result := Resolves (uniform captured) |}.

Definition env_all_not_found : Env :=
  {| ORG_PAT_TOKEN := Some "tok";
     fetch := listing page2;
     rm_result := Resolves tt;
     mkdir_result := Resolves tt;
     launch_result := Resolves (uniform not_found) |}.

End Sample.

(** ** The script *)

Section Script.

(** The directory of the script and Node's [path.join]. *)
Variable __dirname : string.
Variable path_join : string -> string -> string.
Variable env : Env.

(** *** Configuration *)

Definition TARGET_ORG : string := "DapaLMS1".
Definition GITHUB_PAGES_BASE_URL : string :=
  "https://" +:+ toLowerCase TARGET_ORG +:+ ".github.io/".
Definition OUTPUT_DIR : string := path_join __dirname "previews".
Definition THUMBNAIL_WIDTH : nat := 1200.
Definition THUMBNAIL_HEIGHT : nat := 800.
Definition SCREENSHOT_DELAY_MS : nat := 3000.

(** *** removeDirectory *)

Definition removeDirectory (dirPath : string) : M unit :=
  try_catch
    (fs_rm (rm_result env) OUTPUT_DIR dirPath ;;
     console_log ["Successfully removed directory: " +:+ dirPath])
    (fun e =>
       if bool_decide (code e ≠ Some "ENOENT")
       then console_error ["Error removing directory " +:+ dirPath +:+ ":"; message e]
       else ret tt).

(** *** fetchRepositoryNames *)

Definition api_url (page : nat) : string :=
  "https://api.github.com/user/repos?per_page=100&page=" +:+ num page.

Definition request_headers (token : string) : list (string * string) :=
  [("User-Agent", "GitHub-Actions-Repo-Preview-Generator");
   ("Authorization", "token " +:+ token)].

Definition rel_next : string :=
  "rel=" +:+ String dquote ("next" +:+ String dquote "").

(** [linkHeader && linkHeader.includes('rel="next"')], as a condition. *)
Definition has_next (linkHeader : option string) : bool :=
  match linkHeader with
  | Some l => truthy linkHeader && includes l rel_next
  | None => false
  end.

(** The two filters and the map of lines 76 to 81. *)
Definition filter_names (data : list Repo) : list string :=
  map name
    (filter (fun repo => name repo ≠ "Catalog_of_Repos")
       (filter (fun repo => login (owner repo) = TARGET_ORG) data)).

Definition names_of (body : JsonBody) : M (list string) :=
  match body with
  | JsonRepos data => ret (filter_names data)
  | JsonOther e => throw e
  end.

(** One turn of the [while] loop: the values of [hasNextPage],
    [allRepoNames] and [page] after the [try]/[catch]. *)
Definition fetch_page (token : string) (page : nat)
    (allRepoNames : list string) : M (bool * list string * nat) :=
  let url := api_url page in
  let headers := request_headers token in
  try_catch
    (response <- call (Fetch url headers) (fetch env url) ;;
     (if negb (ok response)
      then throw (Error ("GitHub API HTTP error! Status: "
                         +:+ num (status response) +:+ " - "
                         +:+ statusText response))
      else ret tt) ;;
     data <- await (json response) ;;
     let linkHeader := link response in
     let hasNextPage := has_next linkHeader in
     names <- names_of data ;;
     ret (hasNextPage, allRepoNames ++ names, S page))
    (fun error =>
       console_error ["ERROR fetching repository list: " +:+ message error +:+ "."] ;;
       ret (false, allRepoNames, page)).

Fixpoint fetch_loop (fuel : nat) (token : string) (page : nat)
    (allRepoNames : list string) : M (list string) :=
  match fuel with
  | O => unfinished
  | S fuel' =>
      r <- fetch_page token page allRepoNames ;;
      match r with
      | (true, allRepoNames', page') => fetch_loop fuel' token page' allRepoNames'
      | (false, allRepoNames', _) => ret allRepoNames'
      end
  end.

Definition fetchRepositoryNames (fuel : nat) : M (list string) :=
  console_log ["Fetching all accessible repositories for the token user..."] ;;
  let token := ORG_PAT_TOKEN env in
  if negb (truthy token)
  then
    console_error ["FATAL: ORG_PAT_TOKEN environment variable not set. Cannot fetch dynamic repository list."] ;;
    ret []
  else
    allRepoNames <- fetch_loop fuel (default "" token) 1 [] ;;
    console_log ["Found " +:+ num (length allRepoNames)
                 +:+ " deployable repositories in " +:+ TARGET_ORG +:+ "."] ;;
    ret allRepoNames.

(** *** processRepository *)

Definition viewport_clip : Clip :=
  {| clip_x := 0; clip_y := 0;
     clip_width := THUMBNAIL_WIDTH; clip_height := THUMBNAIL_HEIGHT |}.

Definition status_text (response : option HTTPResponse) : string :=
  match response with
  | Some r => num (page_status r)
  | None => "No response"
  end.

(** [!response || !response.ok()] *)
Definition failed_to_load (response : option HTTPResponse) : bool :=
  match response with
  | None => true
  | Some r => negb (page_ok r)
  end.

Definition processRepository (repoName : string) (browser : Browser) : M unit :=
  console_log [String newline ("--- Processing " +:+ repoName +:+ " ---")] ;;
  try_catch
    (pg <- browser_newPage browser ;;
     let (page, answers) := pg : Page * PageBehaviour in
     call (SetViewport page THUMBNAIL_WIDTH THUMBNAIL_HEIGHT)
          (setViewport_result answers) ;;
     let liveUrl := GITHUB_PAGES_BASE_URL +:+ repoName +:+ "/" in
     console_log ["Navigating to live URL: " +:+ liveUrl] ;;
     response <- call (Goto page liveUrl "networkidle2" 60000%N)
                      (goto_result answers) ;;
     if failed_to_load response
     then
       console_warn ["WARNING: Failed to load " +:+ liveUrl +:+ ". Status: "
                     +:+ status_text response +:+ ". Skipping screenshot."] ;;
       call (PageClose page) (close_result answers)
     else
       console_log ["Waiting " +:+ num SCREENSHOT_DELAY_MS
                    +:+ "ms for client-side rendering..."] ;;
       emit (SetTimeout SCREENSHOT_DELAY_MS) ;;
       let outputPath := path_join OUTPUT_DIR (repoName +:+ ".png") in
       console_log ["Taking screenshot and saving to " +:+ outputPath +:+ "..."] ;;
       page_screenshot (screenshot_result answers) page outputPath false viewport_clip ;;
       call (PageClose page) (close_result answers) ;;
       console_log ["SUCCESS: Live application thumbnail saved for " +:+ repoName +:+ "."])
    (fun error =>
       console_error ["FATAL ERROR processing " +:+ repoName +:+ ":"; message error]).

(** *** main *)

Definition launch_args : list string :=
  ["--no-sandbox"; "--disable-setuid-sandbox"; "--disable-dev-shm-usage"; "--disable-gpu"].

(** [for (const repoName of REPO_NAMES) await processRepository(repoName, browser)] *)
Fixpoint process_all (REPO_NAMES : list string) (browser : Browser) : M unit :=
  match REPO_NAMES with
  | [] => ret tt
  | repoName :: rest =>
      processRepository repoName browser ;; process_all rest browser
  end.

Definition main_try (REPO_NAMES : list string) : M unit :=
  console_log ["Cleaning up previous screenshots and setting up output directory..."] ;;
  removeDirectory OUTPUT_DIR ;;
  fs_mkdir (mkdir_result env) OUTPUT_DIR OUTPUT_DIR ;;
  console_log ["Launching headless browser..."] ;;
  b <- call (Launch true launch_args) (launch_result env) ;;
  set_browser (Some b) ;;
  process_all REPO_NAMES b.

Definition main_catch (error : JsError) : M unit :=
  console_error ["A critical error occurred during main execution:"; message error] ;;
  process_exit 1.

Definition main_finally : M unit :=
  s <- get_store ;;
  (match browser s with
   | Some b =>
       call BrowserClose (browser_close_result b) ;;
       console_log ["Browser closed."]
   | None => ret tt
   end) ;;
  console_log [String newline "--- Script finished ---"].

Definition main (fuel : nat) : M unit :=
  REPO_NAMES <- fetchRepositoryNames fuel ;;
  if length REPO_NAMES =? 0
  then console_log ["No repositories found. Exiting."]
  else try_finally (try_catch (main_try REPO_NAMES) main_catch) main_finally.

(** The script's last line, [main();], run from a store in which no
    browser exists yet.  The promise of [main] has no handler: when it
    rejects, Node (v15 and later; the script asks for v18) ends the
    process with status 1; [process.exit(n)] ends it with status [n];
    otherwise the process ends with status 0. *)
Definition initial (dir : option (gset string)) : Store :=
  {| files := dir; browser := None; opened := 0 |}.

Definition exit_status {A} (c : Completion A) : option nat :=
  match c with
  | Normal _ => Some 0
  | Throw _ => Some 1
  | Exit n => Some n
  | Unfinished => None
  end.

Definition run (fuel : nat) (dir : option (gset string))
  : option nat * option (gset string) * list Event :=
  match main fuel (initial dir) with
  | (c, s, t) => (exit_status c, files s, t)
  end.

(** ** Vocabulary of the properties *)

(** The line that opens the processing of one repository. *)
Definition header (repoName : string) : Event :=
  Console LLog [String newline ("--- Processing " +:+ repoName +:+ " ---")].

Definition is_header (ev : Event) : bool :=
  match ev with
  | Console LLog [l] => startsWith l (String newline "--- Processing ")
  | _ => false
  end.

(** The line with which [processRepository] reports a caught exception. *)
Definition fatal_line (repoName : string) (e : JsError) : Event :=
  Console LError ["FATAL ERROR processing " +:+ repoName +:+ ":"; message e].



(** Calls made on a browser, as opposed to the listing endpoint, the
    filesystem and the console. *)
Definition is_browser_call (ev : Event) : bool :=
  match ev with
  | Launch _ _ | NewPage | SetViewport _ _ _ | Goto _ _ _ _
  | SetTimeout _ | Screenshot _ _ _ _ | PageClose _ | BrowserClose => true
  | _ => false
  end.

Definition is_fetch (ev : Event) : bool :=
  match ev with
  | Fetch _ _ => true
  | _ => false
  end.

Definition is_screenshot (ev : Event) : bool :=
  match ev with
  | Screenshot _ _ _ _ => true
  | _ => false
  end.

(** The file a repository's capture is written to. *)
Definition png_path (repoName : string) : string :=
  path_join OUTPUT_DIR (repoName +:+ ".png").

Definition live_url (repoName : string) : string :=
  "https://dapalms1.github.io/" +:+ repoName +:+ "/".

(** The record-level reading of the two filters. *)
Definition kept (repo : Repo) : Prop :=
  login (owner repo) = TARGET_ORG /\ name repo <> "Catalog_of_Repos".

(** What the [try] block of the request for one page throws, if
    anything. *)
Definition page_failure (page : nat) : option JsError :=
  match fetch env (api_url page) with
  | Rejects e => Some e
  | Resolves r =>
      if negb (ok r)
      then Some (Error ("GitHub API HTTP error! Status: " +:+ num (status r)
                        +:+ " - " +:+ statusText r))
      else match json r with
           | Rejects e => Some e
           | Resolves (JsonOther e) => Some e
           | Resolves (JsonRepos _) => None
           end
  end.

Definition fetch_error_line (e : JsError) : Event :=
  Console LError ["ERROR fetching repository list: " +:+ message e +:+ "."].

(** The response carries the next-page marker: its link header contains
    [rel="next"]. *)
Definition next_marker (r : Response) : Prop :=
  exists l pre post, link r = Some l /\ l = pre +:+ rel_next +:+ post.

(** The request for page [k] is answered by [r], a successful response
    whose body is the array [data]. *)
Definition page_served (k : nat) (r : Response) (data : list Repo) : Prop :=
  fetch env (api_url k) = Resolves r
  /\ ok r = true
  /\ json r = Resolves (JsonRepos data).

(** [repo] is a record of a page that the run requested and that the
    endpoint served. *)
Definition returned (t : list Event) (repo : Repo) : Prop :=
  exists url hdrs r data,
    Fetch url hdrs ∈ t
    /\ fetch env url = Resolves r
    /\ ok r = true
    /\ json r = Resolves (JsonRepos data)
    /\ repo ∈ data.

Definition fetching_line : Event :=
  Console LLog ["Fetching all accessible repositories for the token user..."].

Definition found_line (n : nat) : Event :=
  Console LLog ["Found " +:+ num n +:+ " deployable repositories in DapaLMS1."].

Definition requests (token : string) (first count : nat) : list Event :=
  map (fun k => Fetch (api_url k) (request_headers token)) (seq first count).

Definition names_of_pages (data : nat -> list Repo) (first count : nat) : list string :=
  flat_map (fun k => filter_names (data k)) (seq first count).

(** Events of the lister: no browser call, no filesystem call, and no
    line that opens the processing of a repository. *)
Definition listing_only (ev : Event) : bool :=
  negb (is_browser_call ev) && negb (is_header ev)
  && match ev with
     | FsRm _ _ _ | FsMkdir _ _ => false
     | _ => true
     end.

(** *** The setup of [main] *)

Definition with_files (s : Store) (f : option (gset string)) : Store :=
  {| files := f; browser := browser s; opened := opened s |}.

Definition cleaning_line : Event :=
  Console LLog ["Cleaning up previous screenshots and setting up output directory..."].

Definition rm_call : Event := FsRm OUTPUT_DIR true true.
Definition mkdir_call : Event := FsMkdir OUTPUT_DIR true.
Definition launch_call : Event := Launch true launch_args.

(** The console line of [removeDirectory], if any, after its [fs.rm]. *)
Definition rm_report : list Event :=
  match rm_result env with
  | Resolves _ => [Console LLog ["Successfully removed directory: " +:+ OUTPUT_DIR]]
  | Rejects e =>
      if bool_decide (code e ≠ Some "ENOENT")
      then [Console LError ["Error removing directory " +:+ OUTPUT_DIR +:+ ":"; message e]]
      else []
  end.

(** The output directory after [removeDirectory]. *)
Definition dir_after_rm (dir : option (gset string)) : option (gset string) :=
  match rm_result env with
  | Resolves _ => None
  | Rejects _ => dir
  end.

(** The line of the top-level [catch]. *)
Definition critical_line (e : JsError) : Event :=
  Console LError ["A critical error occurred during main execution:"; message e].

Definition launching_line : Event := Console LLog ["Launching headless browser..."].
Definition finished_line : Event := Console LLog [String newline "--- Script finished ---"].

(** The store in which the processing loop starts. *)
Definition loop_store (s : Store) (b : Browser) : Store :=
  {| files := Some (default ∅ (dir_after_rm (files s)));
     browser := Some b;
     opened := opened s |}.

(** The teardown after the loop, and the completion of [main] it gives. *)
Definition teardown (b : Browser) : list Event :=
  BrowserClose ::
  match browser_close_result b with
  | Resolves _ => [Console LLog ["Browser closed."]; finished_line]
  | Rejects _ => []
  end.

Definition teardown_completion (b : Browser) : Completion unit :=
  match browser_close_result b with
  | Resolves _ => Normal tt
  | Rejects e => Throw e
  end.

(** *** Further vocabulary *)

(** The line that closes a successful capture. *)
Definition success_line (repoName : string) : Event :=
  Console LLog ["SUCCESS: Live application thumbnail saved for " +:+ repoName +:+ "."].

Definition no_repositories_line : Event :=
  Console LLog ["No repositories found. Exiting."].

Definition resolves {A} (r : outcome A) : bool :=
  match r with
  | Resolves _ => true
  | Rejects _ => false
  end.

(** On a page context with answers [a] the screenshot is reached and
    resolves: the page opens, is sized, loads with a successful response,
    and [page.screenshot] resolves. *)
Definition screenshot_resolves (a : PageBehaviour) : bool :=
  resolves (newPage_result a)
  && resolves (setViewport_result a)
  && match goto_result a with
     | Resolves response => negb (failed_to_load response)
     | Rejects _ => false
     end
  && resolves (screenshot_result a).

(** ... and the page is then closed without an exception. *)
Definition fully_captured (a : PageBehaviour) : bool :=
  screenshot_resolves a && resolves (close_result a).

(** The files the loop writes over the names [REPO_NAMES] when the first
    page context it opens is the [n]-th of the browser. *)
Fixpoint written (REPO_NAMES : list string) (b : Browser) (n : nat) : gset string :=
  match REPO_NAMES with
  | [] => ∅
  | repoName :: rest =>
      (if screenshot_resolves (pages b n) then {[ png_path repoName ]} else ∅)
      ∪ written rest b (S n)
  end.

Definition is_console (ev : Event) : bool :=
  match ev with
  | Console _ _ => true
  | _ => false
  end.

Definition is_fs_call (ev : Event) : bool :=
  match ev with
  | FsRm _ _ _ | FsMkdir _ _ => true
  | _ => false
  end.

Definition is_browser_close (ev : Event) : bool :=
  match ev with
  | BrowserClose => true
  | _ => false
  end.

(** Calls made on a page context, and the wait before the screenshot. *)
Definition is_page_call (ev : Event) : bool :=
  match ev with
  | NewPage | SetViewport _ _ _ | Goto _ _ _ _
  | SetTimeout _ | Screenshot _ _ _ _ | PageClose _ => true
  | _ => false
  end.

Definition fatal_token_line : Event :=
  Console LError ["FATAL: ORG_PAT_TOKEN environment variable not set. Cannot fetch dynamic repository list."].

(** The lines and calls the lister can emit. *)
Definition lister_event (ev : Event) : Prop :=
  ev = fetching_line
  \/ ev = fatal_token_line
  \/ (exists url hdrs, ev = Fetch url hdrs)
  \/ (exists e, ev = fetch_error_line e)
  \/ (exists n, ev = found_line n).

(** The output directory at the end of a run whose work list is
    [REPO_NAMES], from the directory [dir] at its start. *)
Definition final_directory (REPO_NAMES : list string) (dir : option (gset string))
  : option (gset string) :=
  match REPO_NAMES with
  | [] => dir
  | _ :: _ =>
      match mkdir_result env with
      | Rejects _ => dir_after_rm dir
      | Resolves _ =>
          match launch_result env with
          | Rejects _ => Some (default ∅ (dir_after_rm dir))
          | Resolves b => Some (written REPO_NAMES b 0 ∪ default ∅ (dir_after_rm dir))
          end
      end
  end.


(** ** Proof tools *)

Ltac unfold_script :=
  unfold processRepository, removeDirectory, fs_rm, fs_mkdir,
    browser_newPage, page_screenshot, call, await,
    console_log, console_warn, console_error, emit,
    try_catch, try_finally, bind, ret, throw, process_exit, unfinished,
    get_store, set_opened, set_files, set_browser.

(** Membership in an explicit trace, one entry at a time. *)
Ltac split_trace H :=
  repeat (apply elem_of_cons in H as [H | H]);
  try (apply elem_of_nil in H; destruct H).

Ltac in_trace :=
  repeat first [ apply list_elem_of_here | apply list_elem_of_further ].

(** ** The page capturer *)

Lemma failed_to_load_cases (response : option HTTPResponse) :
  failed_to_load response = true
  <-> response = None \/ exists r, response = Some r /\ page_ok r = false.
Proof.
  destruct response as [r |]; simpl.
  - rewrite negb_true_iff. split.
    + intros H. right. exists r. auto.
    + intros [H | (r' & H & Hr)]; [discriminate | congruence].
  - split; auto.
Qed.

Lemma base_url_value : GITHUB_PAGES_BASE_URL = "https://dapalms1.github.io/".
Proof. reflexivity. Qed.

(** [processRepository] returns normally whatever the browser answers, and
    it opens exactly one page context. *)
Lemma processRepository_returns (repoName : string) (b : Browser) (s : Store) :
  exists s' t,
    processRepository repoName b s = (Normal tt, s', t)
    /\ opened s' = S (opened s)
    /\ browser s' = browser s
    /\ filter is_header t = [header repoName].
Proof.
  unfold_script. simpl.
  destruct (newPage_result (pages b (opened s))) as [[] | e1]; simpl;
    [ | eexists _, _; repeat split; reflexivity ].
  destruct (setViewport_result (pages b (opened s))) as [[] | e2]; simpl;
    [ | eexists _, _; repeat split; reflexivity ].
  destruct (goto_result (pages b (opened s))) as [response | e3]; simpl;
    [ | eexists _, _; repeat split; reflexivity ].
  destruct (failed_to_load response); simpl.
  - destruct (close_result (pages b (opened s))) as [[] | e5]; simpl;
      eexists _, _; repeat split; reflexivity.
  - destruct (screenshot_result (pages b (opened s))) as [[] | e4]; simpl;
      [ | eexists _, _; repeat split; reflexivity ].
    destruct (close_result (pages b (opened s))) as [[] | e5]; simpl;
      eexists _, _; repeat split; reflexivity.
Qed.


(** The loop: every name is processed, in order, and the loop ends
    normally whatever happened to each of them. *)
Lemma process_all_returns (REPO_NAMES : list string) (b : Browser) (s : Store) :
  exists s' t,
    process_all REPO_NAMES b s = (Normal tt, s', t)
    /\ opened s' = opened s + length REPO_NAMES
    /\ browser s' = browser s
    /\ filter is_header t = map header REPO_NAMES.
Proof.
  revert s. induction REPO_NAMES as [| repoName rest IH]; intros s.
  - exists s, []. simpl. unfold ret. repeat split. lia.
  - destruct (processRepository_returns repoName b s) as (s1 & t1 & H1 & Ho1 & Hb1 & Hh1).
    destruct (IH s1) as (s2 & t2 & H2 & Ho2 & Hb2 & Hh2).
    exists s2, (t1 ++ t2). simpl. unfold bind. rewrite H1, H2.
    repeat split.
    + rewrite Ho2, Ho1. simpl. lia.
    + congruence.
    + rewrite filter_app, Hh1, Hh2. reflexivity.
Qed.

(** The loop's trace is the trace of the first call followed by the trace
    of the loop over the remaining names. *)
Lemma process_all_cons (repoName : string) (rest : list string) (b : Browser)
    (s s1 : Store) (t1 : list Event) :
  processRepository repoName b s = (Normal tt, s1, t1) ->
  process_all (repoName :: rest) b s
  = (Normal tt, (process_all rest b s1).1.2, t1 ++ (process_all rest b s1).2).
Proof.
  intros H1. simpl. unfold bind. rewrite H1.
  destruct (process_all_returns rest b s1) as (s2 & t2 & H2 & _).
  rewrite H2. reflexivity.
Qed.



(** ** The repository lister *)

Lemma startsWith_spec (s p : string) :
  startsWith s p = true <-> exists post, s = p +:+ post.
Proof.
  revert s. induction p as [| a p IH]; intros s; simpl.
  - split; [intros _; exists s; reflexivity | reflexivity].
  - destruct s as [| c s]; simpl.
    + split; [discriminate | intros [post H]; discriminate].
    + rewrite andb_true_iff, Ascii.eqb_eq, IH. split.
      * intros [-> [post ->]]. exists post. reflexivity.
      * intros [post H]. injection H as -> ->. eauto.
Qed.

(** [includes] is the substring test. *)
Lemma includes_spec (s sub : string) :
  includes s sub = true <-> exists pre post, s = pre +:+ sub +:+ post.
Proof.
  induction s as [| c s IH]; simpl.
  - rewrite orb_false_r, startsWith_spec. split.
    + intros [post H]. exists "", post. exact H.
    + intros (pre & post & H). destruct pre; [eauto | discriminate].
  - rewrite orb_true_iff, startsWith_spec, IH. split.
    + intros [[post H] | (pre & post & H)].
      * exists "", post. exact H.
      * exists (String c pre), post. simpl. rewrite H. reflexivity.
    + intros (pre & post & H). destruct pre as [| c' pre].
      * left. exists post. exact H.
      * right. injection H as -> ->. eauto.
Qed.

Lemma has_next_spec (linkHeader : option string) :
  has_next linkHeader = true
  <-> exists l pre post, linkHeader = Some l /\ l = pre +:+ rel_next +:+ post.
Proof.
  destruct linkHeader as [l |]; simpl.
  - rewrite andb_true_iff, includes_spec. split.
    + intros [_ (pre & post & H)]. eauto.
    + intros (l' & pre & post & Hl & H). injection Hl as <-. split; [| eauto].
      destruct l; [| reflexivity].
      destruct pre; vm_compute in H; discriminate H.
  - split; [discriminate | intros (l & pre & post & H & _); discriminate].
Qed.

Lemma filter_names_kept (data : list Repo) :
  filter_names data = map name (filter kept data).
Proof.
  unfold filter_names. f_equal.
  induction data as [| repo data IH]; [reflexivity |].
  rewrite !filter_cons. unfold kept at 1.
  destruct (decide (login (owner repo) = TARGET_ORG)) as [Ho | Ho].
  - rewrite filter_cons.
    destruct (decide (name repo <> "Catalog_of_Repos")) as [Hn | Hn].
    + rewrite decide_True by (split; assumption). rewrite IH. reflexivity.
    + rewrite decide_False by (intros [_ ?]; contradiction). exact IH.
  - rewrite decide_False by (intros [? _]; contradiction). exact IH.
Qed.

Lemma elem_of_filter_names (data : list Repo) (n : string) :
  n ∈ filter_names data <-> exists repo, repo ∈ data /\ kept repo /\ name repo = n.
Proof.
  rewrite filter_names_kept, list_elem_of_fmap. split.
  - intros (repo & -> & H). apply list_elem_of_filter in H as [Hk Hin]. eauto.
  - intros (repo & Hin & Hk & <-). exists repo. split; [reflexivity |].
    apply list_elem_of_filter. auto.
Qed.

(** One request that succeeds: the page's names are appended and the
    loop condition is the next-page marker. *)
Lemma fetch_page_success (token : string) (page : nat) (acc : list string)
    (s : Store) (r : Response) (data : list Repo) :
  fetch env (api_url page) = Resolves r ->
  ok r = true ->
  json r = Resolves (JsonRepos data) ->
  fetch_page token page acc s
  = (Normal (has_next (link r), acc ++ filter_names data, S page), s,
     [Fetch (api_url page) (request_headers token)]).
Proof.
  intros Hf Hok Hj. unfold fetch_page. unfold_script.
  rewrite Hf. simpl. rewrite Hok. simpl. rewrite Hj. simpl. reflexivity.
Qed.

(** One request that fails: logged, nothing appended, the loop stops. *)
Lemma fetch_page_failure (token : string) (page : nat) (acc : list string)
    (s : Store) (e : JsError) :
  page_failure page = Some e ->
  fetch_page token page acc s
  = (Normal (false, acc, page), s,
     [Fetch (api_url page) (request_headers token); fetch_error_line e]).
Proof.
  unfold page_failure, fetch_page. unfold_script.
  destruct (fetch env (api_url page)) as [r | e0]; simpl.
  - destruct (ok r); simpl.
    + destruct (json r) as [[data | e1] | e1]; simpl;
        intros H; try discriminate H; injection H as <-; reflexivity.
    + intros H. injection H as <-. reflexivity.
  - intros H. injection H as <-. reflexivity.
Qed.

Lemma page_failure_none (page : nat) :
  page_failure page = None ->
  exists r data,
    fetch env (api_url page) = Resolves r /\ ok r = true
    /\ json r = Resolves (JsonRepos data).
Proof.
  unfold page_failure.
  destruct (fetch env (api_url page)) as [r | e0]; [| discriminate].
  destruct (ok r) eqn:Hok; simpl; [| discriminate].
  destruct (json r) as [[data | e1] | e1] eqn:Hj; try discriminate.
  intros _. eauto.
Qed.

(** Through [n] served pages that carry the marker the loop requests
    each page once, in order, and appends each page's names. *)
Lemma fetch_loop_advance (n fuel : nat) (token : string) (page : nat)
    (acc : list string) (s : Store)
    (resp : nat -> Response) (data : nat -> list Repo) :
  (forall k, page <= k < page + n ->
             page_served k (resp k) (data k) /\ has_next (link (resp k)) = true) ->
  fetch_loop (n + fuel) token page acc s
  = ((fetch_loop fuel token (page + n) (acc ++ names_of_pages data page n) s).1,
     requests token page n
     ++ (fetch_loop fuel token (page + n) (acc ++ names_of_pages data page n) s).2).
Proof.
  revert page acc. induction n as [| n IH]; intros page acc Hk.
  - unfold names_of_pages, requests. simpl.
    rewrite Nat.add_0_r, app_nil_r.
    destruct (fetch_loop fuel token page acc s) as [[c s'] t]. reflexivity.
  - destruct (Hk page ltac:(lia)) as ((Hf & Hok & Hj) & Hn).
    change (S n + fuel) with (S (n + fuel)). simpl fetch_loop. unfold bind.
    rewrite (fetch_page_success token page acc s _ _ Hf Hok Hj), Hn.
    rewrite (IH (S page) (acc ++ filter_names (data page))).
    + unfold names_of_pages, requests. simpl seq. simpl flat_map. simpl map.
      replace (page + S n) with (S page + n) by lia.
      rewrite <- app_assoc.
      destruct (fetch_loop fuel token (S page + n) _ s) as [[c s'] t].
      reflexivity.
    + intros k Hlt. apply Hk. lia.
Qed.

(** What a finished loop returns: the names it started with, followed by
    names of kept records of pages it requested and was served. *)
Lemma fetch_loop_result (fuel : nat) (token : string) (page : nat)
    (acc names : list string) (s s' : Store) (t : list Event) :
  fetch_loop fuel token page acc s = (Normal names, s', t) ->
  s' = s
  /\ (forall n, n ∈ names <->
                n ∈ acc \/ exists repo, returned t repo /\ kept repo /\ name repo = n).
Proof.
  revert page acc t. induction fuel as [| fuel IH]; intros page acc t; simpl.
  - unfold unfinished. discriminate.
  - unfold bind. destruct (page_failure page) as [e |] eqn:Hpf.
    + rewrite (fetch_page_failure token page acc s e Hpf). simpl.
      intros H. injection H as <- <- <-. split; [reflexivity |].
      intros n. split; [auto |]. intros [H | (repo & Hr & _)]; [exact H |].
      destruct Hr as (url & hdrs & r & data & Hin & Hf & Hok & Hj & _).
      split_trace Hin; try discriminate Hin.
      injection Hin as -> _. unfold page_failure in Hpf.
      rewrite Hf, Hok, Hj in Hpf. discriminate Hpf.
    + destruct (page_failure_none page Hpf) as (r & data & Hf & Hok & Hj).
      rewrite (fetch_page_success token page acc s r data Hf Hok Hj).
      assert (Hhere : forall repo, repo ∈ data ->
                forall t', returned (Fetch (api_url page) (request_headers token) :: t') repo).
      { intros repo Hin t'. exists (api_url page), (request_headers token), r, data.
        repeat split; auto. apply list_elem_of_here. }
      assert (Hlater : forall repo t', returned t' repo ->
                returned (Fetch (api_url page) (request_headers token) :: t') repo).
      { intros repo t' (url & hdrs & r' & data' & Hin & H).
        exists url, hdrs, r', data'. split; [apply list_elem_of_further, Hin | exact H]. }
      assert (Hinv : forall repo t',
                returned (Fetch (api_url page) (request_headers token) :: t') repo ->
                repo ∈ data \/ returned t' repo).
      { intros repo t' (url & hdrs & r' & data' & Hin & Hf' & Hok' & Hj' & Hd).
        apply elem_of_cons in Hin as [Hin | Hin].
        - left. injection Hin as -> _. rewrite Hf in Hf'. injection Hf' as <-.
          rewrite Hj in Hj'. injection Hj' as <-. exact Hd.
        - right. exists url, hdrs, r', data'. auto. }
      destruct (has_next (link r)).
      * destruct (fetch_loop fuel token (S page) (acc ++ filter_names data) s)
          as [[c s2] t2] eqn:Hloop.
        intros H. injection H as -> <- <-.
        destruct (IH _ _ _ Hloop) as [-> Hnames]. split; [reflexivity |].
        intros n. rewrite Hnames, elem_of_app, elem_of_filter_names. simpl. split.
        -- intros [[H | (repo & Hin & Hk & Hn)] | (repo & Hr & Hk & Hn)]; eauto 8.
        -- intros [H | (repo & Hr & Hk & Hn)]; [auto |].
           destruct (Hinv _ _ Hr); eauto 8.
      * simpl. intros H. injection H as <- <- <-. split; [reflexivity |].
        intros n. rewrite elem_of_app, elem_of_filter_names. split.
        -- intros [H | (repo & Hin & Hk & Hn)]; eauto 8.
        -- intros [H | (repo & Hr & Hk & Hn)]; [auto |].
           destruct (Hinv _ _ Hr) as [Hd | Hr']; [eauto 8 |].
           destruct Hr' as (url & hdrs & r' & data' & Hin & _).
           apply elem_of_nil in Hin. destruct Hin.
Qed.

(** The lister touches neither the store nor the browser, and none of its
    console lines opens the processing of a repository. *)
Lemma fetch_page_frame (token : string) (page : nat) (acc : list string) (s : Store) :
  (fetch_page token page acc s).1.2 = s
  /\ forallb listing_only (fetch_page token page acc s).2 = true
  /\ exists r, (fetch_page token page acc s).1.1 = Normal r.
Proof.
  destruct (page_failure page) as [e |] eqn:Hpf.
  - rewrite (fetch_page_failure token page acc s e Hpf). simpl. eauto.
  - destruct (page_failure_none page Hpf) as (r & data & Hf & Hok & Hj).
    rewrite (fetch_page_success token page acc s r data Hf Hok Hj). simpl. eauto.
Qed.

Lemma fetch_loop_frame (fuel : nat) (token : string) (page : nat)
    (acc : list string) (s : Store) :
  (fetch_loop fuel token page acc s).1.2 = s
  /\ forallb listing_only (fetch_loop fuel token page acc s).2 = true
  /\ ((exists names, (fetch_loop fuel token page acc s).1.1 = Normal names)
      \/ (fetch_loop fuel token page acc s).1.1 = Unfinished).
Proof.
  revert page acc. induction fuel as [| fuel IH]; intros page acc; simpl.
  - unfold unfinished. simpl. auto.
  - unfold bind.
    destruct (fetch_page_frame token page acc s) as (Hs & Ht & (r & Hr)).
    destruct (fetch_page token page acc s) as [[c s1] t1]. simpl in *.
    subst c s1. destruct r as [[[] acc'] page'].
    + destruct (IH page' acc') as (Hs2 & Ht2 & Hc2).
      destruct (fetch_loop fuel token page' acc' s) as [[c2 s2] t2]. simpl in *.
      rewrite forallb_app, Ht, Ht2. auto.
    + unfold ret. simpl. rewrite app_nil_r. eauto.
Qed.

Lemma fetchRepositoryNames_frame (fuel : nat) (s : Store) :
  (fetchRepositoryNames fuel s).1.2 = s
  /\ forallb listing_only (fetchRepositoryNames fuel s).2 = true
  /\ ((exists names, (fetchRepositoryNames fuel s).1.1 = Normal names)
      \/ (fetchRepositoryNames fuel s).1.1 = Unfinished).
Proof.
  unfold fetchRepositoryNames, console_log, console_error, emit, bind, ret. simpl.
  destruct (truthy (ORG_PAT_TOKEN env)); simpl; [| eauto].
  destruct (fetch_loop_frame fuel (default "" (ORG_PAT_TOKEN env)) 1 [] s)
    as (Hs & Ht & Hc).
  destruct (fetch_loop fuel (default "" (ORG_PAT_TOKEN env)) 1 [] s) as [[c s1] t1].
  simpl in *. subst s1.
  destruct Hc as [[names ->] | ->]; simpl.
  - rewrite forallb_app, Ht. simpl. eauto.
  - auto.
Qed.

(** ** The run *)

(** [removeDirectory] returns normally whatever [fs.rm] answers. *)
Lemma removeDirectory_returns (s : Store) :
  removeDirectory OUTPUT_DIR s
  = (Normal tt, with_files s (dir_after_rm (files s)), rm_call :: rm_report).
Proof.
  unfold_script. unfold with_files, dir_after_rm, rm_report, rm_call. simpl.
  destruct (rm_result env) as [[] | e]; simpl.
  - rewrite String.eqb_refl. simpl. reflexivity.
  - destruct s. destruct (bool_decide (code e ≠ Some "ENOENT")); reflexivity.
Qed.

Lemma main_try_mkdir_rejects (REPO_NAMES : list string) (s : Store) (e : JsError) :
  mkdir_result env = Rejects e ->
  try_catch (main_try REPO_NAMES) main_catch s
  = (Exit 1, with_files s (dir_after_rm (files s)),
     cleaning_line :: rm_call :: rm_report ++ [mkdir_call; critical_line e]).
Proof.
  intros Hm. unfold main_try, main_catch.
  unfold try_catch, bind at 1 2. unfold console_log at 1. unfold emit at 1.
  rewrite removeDirectory_returns.
  unfold_script. simpl. rewrite Hm. simpl.
  rewrite <- ?app_assoc. reflexivity.
Qed.

Lemma main_try_launch_rejects (REPO_NAMES : list string) (s : Store) (e : JsError) :
  mkdir_result env = Resolves tt ->
  launch_result env = Rejects e ->
  try_catch (main_try REPO_NAMES) main_catch s
  = (Exit 1, with_files s (Some (default ∅ (dir_after_rm (files s)))),
     cleaning_line :: rm_call :: rm_report
     ++ [mkdir_call; launching_line; launch_call; critical_line e]).
Proof.
  intros Hm Hl. unfold main_try, main_catch.
  unfold try_catch, bind at 1 2. unfold console_log at 1. unfold emit at 1.
  rewrite removeDirectory_returns.
  unfold_script. simpl. rewrite Hm. simpl. rewrite String.eqb_refl. simpl.
  rewrite Hl. simpl. rewrite <- ?app_assoc. reflexivity.
Qed.

Lemma main_try_launched (REPO_NAMES : list string) (s : Store) (b : Browser) :
  mkdir_result env = Resolves tt ->
  launch_result env = Resolves b ->
  try_finally (try_catch (main_try REPO_NAMES) main_catch) main_finally s
  = (teardown_completion b,
     (process_all REPO_NAMES b (loop_store s b)).1.2,
     cleaning_line :: rm_call :: rm_report
     ++ [mkdir_call; launching_line; launch_call]
     ++ (process_all REPO_NAMES b (loop_store s b)).2
     ++ teardown b).
Proof.
  intros Hm Hl.
  destruct (process_all_returns REPO_NAMES b (loop_store s b))
    as (s2 & t2 & H2 & _ & Hb2 & _).
  unfold main_try, main_catch, main_finally.
  unfold try_finally, try_catch, bind at 1 2. unfold console_log at 1. unfold emit at 1.
  rewrite removeDirectory_returns.
  unfold_script. simpl. rewrite Hm. simpl. rewrite String.eqb_refl. simpl.
  rewrite Hl. simpl.
  match goal with
  | |- context [process_all REPO_NAMES b ?st] => change st with (loop_store s b)
  end.
  rewrite H2. simpl. rewrite Hb2. simpl.
  unfold teardown, teardown_completion, finished_line.
  destruct (browser_close_result b) as [[] | e]; simpl;
    rewrite <- ?app_assoc; simpl; reflexivity.
Qed.

Lemma main_with_work (fuel : nat) (s : Store) (REPO_NAMES : list string)
    (t0 : list Event) :
  fetchRepositoryNames fuel s = (Normal REPO_NAMES, s, t0) ->
  REPO_NAMES <> [] ->
  main fuel s
  = ((try_finally (try_catch (main_try REPO_NAMES) main_catch) main_finally s).1,
     t0 ++ (try_finally (try_catch (main_try REPO_NAMES) main_catch) main_finally s).2).
Proof.
  intros Hf Hne. unfold main, bind. rewrite Hf.
  destruct REPO_NAMES as [| n rest]; [contradiction |]. simpl.
  destruct (try_finally _ _ s) as [[c s'] t]. reflexivity.
Qed.

Lemma main_without_work (fuel : nat) (s : Store) (t0 : list Event) :
  fetchRepositoryNames fuel s = (Normal [], s, t0) ->
  main fuel s
  = (Normal tt, s, t0 ++ [Console LLog ["No repositories found. Exiting."]]).
Proof.
  intros Hf. unfold main, bind. rewrite Hf. reflexivity.
Qed.

Lemma listing_only_no_header (t : list Event) :
  forallb listing_only t = true -> filter is_header t = [].
Proof.
  induction t as [| ev t IH]; [reflexivity |]. simpl.
  rewrite andb_true_iff. intros [Hev Ht]. rewrite filter_cons.
  unfold listing_only in Hev. rewrite !andb_true_iff in Hev.
  destruct Hev as [[_ Hh] _]. apply negb_true_iff in Hh. rewrite Hh. simpl. auto.
Qed.

Lemma listing_only_no_browser_call (t : list Event) (ev : Event) :
  forallb listing_only t = true -> ev ∈ t -> is_browser_call ev = false.
Proof.
  intros Ht Hin. rewrite forallb_forall in Ht.
  apply list_elem_of_In in Hin. specialize (Ht ev Hin).
  unfold listing_only in Ht. rewrite !andb_true_iff in Ht.
  destruct Ht as [[Hb _] _]. apply negb_true_iff in Hb. exact Hb.
Qed.

(** ** The specified properties *)

(** C1 (not met by the code).  When a call made on an opened page context
    throws before the screenshot has been taken -- [setViewport], [goto]
    (a navigation error or its 60 s timeout) or [screenshot] itself --
    [processRepository] logs the exception and returns without ever
    calling [page.close()]: the page context stays open. *)
Theorem processRepository_exception_leaves_page_open
    (repoName : string) (b : Browser) (s : Store) (e : JsError) :
  newPage_result (pages b (opened s)) = Resolves tt ->
  (setViewport_result (pages b (opened s)) = Rejects e
   \/ (setViewport_result (pages b (opened s)) = Resolves tt
       /\ goto_result (pages b (opened s)) = Rejects e)
   \/ (setViewport_result (pages b (opened s)) = Resolves tt
       /\ exists r, goto_result (pages b (opened s)) = Resolves (Some r)
                    /\ page_ok r = true
                    /\ screenshot_result (pages b (opened s)) = Rejects e)) ->
  exists s' t,
    processRepository repoName b s = (Normal tt, s', t)
    /\ NewPage ∈ t
    /\ fatal_line repoName e ∈ t
    /\ forall p, PageClose p ∉ t.
Proof.
  intros Hn Hcase. unfold_script. unfold fatal_line. simpl. rewrite Hn. simpl.
  destruct Hcase as [Hv | [[Hv Hg] | [Hv (r & Hg & Hok & Hs)]]];
    rewrite Hv; simpl; try (rewrite Hg; simpl);
    try (rewrite Hok; simpl; rewrite Hs; simpl);
    eexists _, _; (split; [reflexivity |]);
    (split; [in_trace |]); (split; [in_trace |]);
    intros p Hp; split_trace Hp; discriminate Hp.
Qed.

(** C8.  When navigation yields no response, or a response that is not
    successful (a 404, say), [processRepository] logs a warning, takes no
    screenshot and writes no file, calls [page.close()] on the page
    context, and the loop goes on with the names that follow. *)
Theorem failed_navigation_is_skipped
    (repoName : string) (rest : list string) (b : Browser) (s : Store)
    (response : option HTTPResponse) :
  newPage_result (pages b (opened s)) = Resolves tt ->
  setViewport_result (pages b (opened s)) = Resolves tt ->
  goto_result (pages b (opened s)) = Resolves response ->
  (response = None \/ exists r, response = Some r /\ page_ok r = false) ->
  exists s1 t1,
    processRepository repoName b s = (Normal tt, s1, t1)
    /\ Console LWarn ["WARNING: Failed to load " +:+ live_url repoName
                      +:+ ". Status: " +:+ status_text response
                      +:+ ". Skipping screenshot."] ∈ t1
    /\ filter is_screenshot t1 = []
    /\ files s1 = files s
    /\ PageClose (opened s) ∈ t1
    /\ process_all (repoName :: rest) b s
       = (Normal tt, (process_all rest b s1).1.2, t1 ++ (process_all rest b s1).2)
    /\ filter is_header (process_all rest b s1).2 = map header rest.
Proof.
  intros Hn Hv Hg Hfail. apply failed_to_load_cases in Hfail.
  destruct (processRepository_returns repoName b s) as (s1 & t1 & H1 & _).
  exists s1, t1. split; [exact H1 |].
  rewrite (process_all_cons repoName rest b s s1 t1 H1).
  destruct (process_all_returns rest b s1) as (s2 & t2 & H2 & _ & _ & Hh).
  rewrite H2. simpl.
  revert H1. unfold_script. simpl. rewrite Hn. simpl. rewrite Hv. simpl.
  rewrite Hg. simpl. rewrite Hfail. simpl.
  destruct (close_result (pages b (opened s))) as [[] | e]; simpl;
    intros H1; injection H1 as <- <-; simpl;
    (split; [in_trace |]); (split; [reflexivity |]); (split; [reflexivity |]);
    (split; [in_trace |]); (split; [reflexivity | exact Hh]).
Qed.

(** C9.  With a page context opened and sized, [processRepository] sets
    the viewport to 1200x800 and navigates to
    ['https://dapalms1.github.io/' + name + '/'] (the owner lowercased in
    the host; the listing filter compares the owner as it is, so a record
    owned by [dapalms1] is not kept).  On a successful response it waits
    3000 ms and takes a screenshot clipped to (0, 0, 1200, 800) into
    [<output-dir>/<name>.png]; when the screenshot resolves, that file is
    in the output directory. *)
Theorem capture_url_viewport_and_clip
    (repoName : string) (b : Browser) (s : Store) :
  newPage_result (pages b (opened s)) = Resolves tt ->
  setViewport_result (pages b (opened s)) = Resolves tt ->
  exists s' t_end,
    processRepository repoName b s
    = (Normal tt, s',
       [header repoName; NewPage; SetViewport (opened s) 1200 800;
        Console LLog ["Navigating to live URL: " +:+ live_url repoName];
        Goto (opened s) (live_url repoName) "networkidle2" 60000%N] ++ t_end)
    /\ (forall r,
          goto_result (pages b (opened s)) = Resolves (Some r) ->
          page_ok r = true ->
          exists t_fin,
            t_end
            = [Console LLog ["Waiting 3000ms for client-side rendering..."];
               SetTimeout 3000;
               Console LLog ["Taking screenshot and saving to "
                             +:+ png_path repoName +:+ "..."];
               Screenshot (opened s) (png_path repoName) false
                 {| clip_x := 0; clip_y := 0;
                    clip_width := 1200; clip_height := 800 |}] ++ t_fin
            /\ (screenshot_result (pages b (opened s)) = Resolves tt ->
                files s' = Some ({[ png_path repoName ]} ∪ default ∅ (files s))))
    /\ live_url repoName
       = "https://" +:+ toLowerCase TARGET_ORG +:+ ".github.io/" +:+ repoName +:+ "/"
    /\ png_path repoName
       = path_join (path_join __dirname "previews") (repoName +:+ ".png")
    /\ toLowerCase TARGET_ORG <> TARGET_ORG
    /\ filter_names [{| owner := {| login := toLowerCase TARGET_ORG |};
                        name := repoName |}] = [].
Proof.
  intros Hn Hv. unfold_script. simpl. rewrite Hn. simpl. rewrite Hv. simpl.
  destruct (goto_result (pages b (opened s))) as [response | e3]; simpl.
  - destruct response as [r |]; simpl.
    + destruct (page_ok r) eqn:Hok; simpl.
      * destruct (screenshot_result (pages b (opened s))) as [[] | e4]; simpl.
        -- destruct (close_result (pages b (opened s))) as [[] | e5]; simpl;
             eexists _, _; (split; [reflexivity |]);
             (split; [ intros r' Hr' _; eexists; split; [reflexivity |];
                       intros _; reflexivity
                     | repeat split; try reflexivity; discriminate ]).
        -- eexists _, _. split; [reflexivity |].
           split; [ intros r' Hr' _; eexists; split; [reflexivity |];
                    intros H; discriminate H
                  | repeat split; try reflexivity; discriminate ].
      * destruct (close_result (pages b (opened s))) as [[] | e5]; simpl;
          eexists _, _; (split; [reflexivity |]);
          (split; [ intros r' Hr' Hok'; injection Hr' as <-; congruence
                  | repeat split; try reflexivity; discriminate ]).
    + destruct (close_result (pages b (opened s))) as [[] | e5]; simpl;
        eexists _, _; (split; [reflexivity |]);
        (split; [ intros r' Hr'; discriminate Hr'
                | repeat split; try reflexivity; discriminate ]).
  - eexists _, _. split; [reflexivity |].
    split; [ intros r' Hr'; discriminate Hr'
           | repeat split; try reflexivity; discriminate ].
Qed.


Lemma returned_in_listing (t1 : list Event) (l1 : Event) (l2 : list Event) (repo : Repo) :
  is_fetch l1 = false ->
  forallb (fun ev => negb (is_fetch ev)) l2 = true ->
  returned (l1 :: t1 ++ l2) repo <-> returned t1 repo.
Proof.
  intros H1 H2. unfold returned. split.
  - intros (url & hdrs & r & data & Hin & H). exists url, hdrs, r, data.
    split; [| exact H].
    apply elem_of_cons in Hin as [<- | Hin]; [discriminate H1 |].
    apply elem_of_app in Hin as [Hin | Hin]; [exact Hin |].
    rewrite forallb_forall in H2. apply list_elem_of_In in Hin.
    specialize (H2 _ Hin). simpl in H2. discriminate H2.
  - intros (url & hdrs & r & data & Hin & H). exists url, hdrs, r, data.
    split; [| exact H]. apply list_elem_of_further, elem_of_app. auto.
Qed.

(** C4.  Each page's names are the names of exactly the records whose
    owner is ["DapaLMS1"], compared as it is, and whose name is not
    ["Catalog_of_Repos"], in the page's order; a name is in the result of
    [fetchRepositoryNames] if and only if a record returned by the
    endpoint bears it and passes both tests; the catalog's own name is
    never in the result. *)
Theorem listing_filter_policy
    (fuel : nat) (s s' : Store) (names : list string) (t : list Event) :
  fetchRepositoryNames fuel s = (Normal names, s', t) ->
  (forall data,
     filter_names data = map name (filter kept data)
     /\ forall repo, repo ∈ filter kept data <->
                     repo ∈ data
                     /\ login (owner repo) = "DapaLMS1"
                     /\ name repo <> "Catalog_of_Repos")
  /\ (forall n, n ∈ names <->
                exists repo, returned t repo
                             /\ login (owner repo) = "DapaLMS1"
                             /\ name repo <> "Catalog_of_Repos"
                             /\ name repo = n)
  /\ "Catalog_of_Repos" ∉ names.
Proof using env.
  intros Hrun.
  assert (Hiff : forall n, n ∈ names <->
                   exists repo, returned t repo /\ kept repo /\ name repo = n).
  { revert Hrun.
    unfold fetchRepositoryNames, console_log, console_error, emit, bind, ret. simpl.
    destruct (truthy (ORG_PAT_TOKEN env)); simpl.
    - destruct (fetch_loop fuel (default "" (ORG_PAT_TOKEN env)) 1 [] s)
        as [[c s1] t1] eqn:Hloop.
      destruct c as [names1 | e | n | ]; simpl; try discriminate.
      intros H. injection H as <- <- <-.
      destruct (fetch_loop_result _ _ _ _ _ _ _ _ Hloop) as [_ Hnames].
      intros n. rewrite Hnames. split.
      + intros [H | (repo & Hr & Hk)]; [apply elem_of_nil in H; destruct H |].
        exists repo. split; [| exact Hk].
        apply returned_in_listing; auto.
      + intros (repo & Hr & Hk). right. exists repo. split; [| exact Hk].
        apply returned_in_listing in Hr; auto.
    - intros H. injection H as <- <- <-. intros n. split.
      + intros H. apply elem_of_nil in H. destruct H.
      + intros (repo & (url & hdrs & r & data & Hin & _) & _).
        split_trace Hin; discriminate Hin. }
  split; [| split].
  - intros data. split; [apply filter_names_kept |].
    intros repo. rewrite list_elem_of_filter. unfold kept, TARGET_ORG.
    split; [intros [[Ho Hn] Hin] | intros [Hin [Ho Hn]]]; auto.
  - intros n. rewrite Hiff. unfold kept, TARGET_ORG.
    split; [intros (repo & Hr & [Ho Hn] & He) | intros (repo & Hr & Ho & Hn & He)];
      exists repo; auto.
  - intros Hin. apply Hiff in Hin as (repo & _ & [_ Hne] & Hn). contradiction.
Qed.

(** C5.  Without the credential, [fetchRepositoryNames] logs the fatal
    condition and returns the empty sequence; the run then consists of
    three console lines only -- no request, no navigation, no filesystem
    call -- leaves the output directory as it was and ends with status
    0. *)
Theorem missing_credential_is_a_clean_stop
    (fuel : nat) (dir : option (gset string)) :
  ORG_PAT_TOKEN env = None ->
  (forall s,
     fetchRepositoryNames fuel s
     = (Normal [], s,
        [fetching_line;
         Console LError ["FATAL: ORG_PAT_TOKEN environment variable not set. Cannot fetch dynamic repository list."]]))
  /\ run fuel dir
     = (Some 0, dir,
        [fetching_line;
         Console LError ["FATAL: ORG_PAT_TOKEN environment variable not set. Cannot fetch dynamic repository list."];
         Console LLog ["No repositories found. Exiting."]])
  /\ (forall ev, ev ∈ (run fuel dir).2 -> exists l args, ev = Console l args).
Proof.
  intros Htok.
  assert (Hfetch : forall s,
     fetchRepositoryNames fuel s
     = (Normal [], s,
        [fetching_line;
         Console LError ["FATAL: ORG_PAT_TOKEN environment variable not set. Cannot fetch dynamic repository list."]])).
  { intros s. unfold fetchRepositoryNames, console_log, console_error, emit, bind, ret.
    rewrite Htok. reflexivity. }
  assert (Hrun : run fuel dir
     = (Some 0, dir,
        [fetching_line;
         Console LError ["FATAL: ORG_PAT_TOKEN environment variable not set. Cannot fetch dynamic repository list."];
         Console LLog ["No repositories found. Exiting."]])).
  { unfold run. rewrite (main_without_work fuel (initial dir) _ (Hfetch _)).
    reflexivity. }
  split; [exact Hfetch |]. split; [exact Hrun |].
  rewrite Hrun. simpl. intros ev Hin. split_trace Hin; subst ev; eauto.
Qed.

Lemma next_marker_has_next (r : Response) :
  next_marker r <-> has_next (link r) = true.
Proof. unfold next_marker. symmetry. apply has_next_spec. Qed.

Lemma no_next_marker (r : Response) :
  ~ next_marker r -> has_next (link r) = false.
Proof.
  rewrite next_marker_has_next. destruct (has_next (link r)); [| reflexivity].
  intros H. destruct H. reflexivity.
Qed.

Lemma names_of_pages_snoc (data : nat -> list Repo) (first count : nat) :
  names_of_pages data first (S count)
  = names_of_pages data first count ++ filter_names (data (first + count)).
Proof.
  unfold names_of_pages. rewrite seq_S, flat_map_app. simpl.
  rewrite app_nil_r. reflexivity.
Qed.

Lemma requests_snoc (token : string) (first count : nat) :
  requests token first (S count)
  = requests token first count
    ++ [Fetch (api_url (first + count)) (request_headers token)].
Proof. unfold requests. rewrite seq_S, map_app. reflexivity. Qed.

Lemma fetchRepositoryNames_with_token (token : string) (fuel : nat) (s : Store) :
  ORG_PAT_TOKEN env = Some token ->
  truthy (Some token) = true ->
  fetchRepositoryNames fuel s
  = match fetch_loop fuel token 1 [] s with
    | (Normal names, s1, t1) =>
        (Normal names, s1, fetching_line :: t1 ++ [found_line (length names)])
    | (Throw e, s1, t1) => (Throw e, s1, fetching_line :: t1)
    | (Exit n, s1, t1) => (Exit n, s1, fetching_line :: t1)
    | (Unfinished, s1, t1) => (Unfinished, s1, fetching_line :: t1)
    end.
Proof.
  intros Htok Htruthy.
  unfold fetchRepositoryNames, console_log, emit, bind, ret.
  rewrite Htok, Htruthy. simpl.
  destruct (fetch_loop fuel token 1 [] s) as [[[names | e | n |] s1] t1]; reflexivity.
Qed.

(** C6.  With a credential, the lister requests
    [.../user/repos?per_page=100&page=k] for k = 1, 2, ...; through
    served pages whose link header contains [rel="next"] it goes on, at
    the first served page without the marker it stops, having made one
    request per page, and returns the pages' filtered names in page
    order.  When the first response lacks the marker, one request is made
    in all. *)
Theorem pagination_follows_next_marker
    (token : string) (fuel : nat) (s : Store) :
  ORG_PAT_TOKEN env = Some token ->
  truthy (Some token) = true ->
  (forall n resp data,
     (forall k, 1 <= k <= S n -> page_served k (resp k) (data k)) ->
     (forall k, 1 <= k <= n -> next_marker (resp k)) ->
     ~ next_marker (resp (S n)) ->
     n < fuel ->
     fetchRepositoryNames fuel s
     = (Normal (names_of_pages data 1 (S n)), s,
        fetching_line :: requests token 1 (S n)
        ++ [found_line (length (names_of_pages data 1 (S n)))]))
  /\ (forall r1,
        fetch env (api_url 1) = Resolves r1 ->
        ~ next_marker r1 ->
        0 < fuel ->
        exists names,
          (fetchRepositoryNames fuel s).1.1 = Normal names
          /\ filter is_fetch (fetchRepositoryNames fuel s).2
             = [Fetch (api_url 1) (request_headers token)])
  /\ (forall k, api_url k
                = "https://api.github.com/user/repos?per_page=100&page=" +:+ num k)
  /\ api_url 1 = "https://api.github.com/user/repos?per_page=100&page=1".
Proof.
  intros Htok Htruthy.
  split; [| split; [| split; [reflexivity | reflexivity]]].
  - intros n resp data Hserved Hnext Hlast Hfuel.
    rewrite (fetchRepositoryNames_with_token token fuel s Htok Htruthy).
    rewrite names_of_pages_snoc, requests_snoc.
    replace fuel with (n + S (fuel - S n)) by lia.
    rewrite (fetch_loop_advance n (S (fuel - S n)) token 1 [] s resp data).
    + destruct (Hserved (S n) ltac:(lia)) as (Hf & Hok & Hj).
      change (1 + n) with (S n). simpl fetch_loop. unfold bind.
      rewrite (fetch_page_success token (S n) _ s _ _ Hf Hok Hj).
      rewrite (no_next_marker _ Hlast). unfold ret. cbn [fst snd app].
      rewrite <- !app_assoc. reflexivity.
    + intros k Hk. split.
      * apply Hserved. lia.
      * apply next_marker_has_next, Hnext. lia.
  - intros r1 Hf Hlast Hfuel.
    rewrite (fetchRepositoryNames_with_token token fuel s Htok Htruthy).
    destruct fuel as [| fuel]; [lia |]. simpl fetch_loop. unfold bind.
    destruct (page_failure 1) as [e |] eqn:Hpf.
    + rewrite (fetch_page_failure token 1 [] s e Hpf). simpl. eauto.
    + destruct (page_failure_none 1 Hpf) as (r & data & Hf' & Hok & Hj).
      rewrite (fetch_page_success token 1 [] s r data Hf' Hok Hj).
      rewrite Hf in Hf'. injection Hf' as <-.
      rewrite (no_next_marker _ Hlast). simpl. eauto.
Qed.

(** C7.  When the request for a page fails -- [fetch] rejects, or the
    response's status is outside 200..299 -- after [n] pages served with
    the marker, the lister logs the error, makes no further request (the
    failed page is requested once), and returns exactly the names of the
    [n] pages served before. *)
Theorem listing_failure_stops_pagination
    (token : string) (fuel : nat) (s : Store)
    (n : nat) (resp : nat -> Response) (data : nat -> list Repo) (e : JsError) :
  ORG_PAT_TOKEN env = Some token ->
  truthy (Some token) = true ->
  (forall k, 1 <= k <= n -> page_served k (resp k) (data k) /\ next_marker (resp k)) ->
  (fetch env (api_url (S n)) = Rejects e
   \/ exists r,
        fetch env (api_url (S n)) = Resolves r
        /\ (status r < 200 \/ 299 < status r)
        /\ e = Error ("GitHub API HTTP error! Status: " +:+ num (status r)
                      +:+ " - " +:+ statusText r)) ->
  n < fuel ->
  fetchRepositoryNames fuel s
  = (Normal (names_of_pages data 1 n), s,
     fetching_line :: requests token 1 (S n)
     ++ [fetch_error_line e; found_line (length (names_of_pages data 1 n))]).
Proof.
  intros Htok Htruthy Hserved Hfail Hfuel.
  assert (Hpf : page_failure (S n) = Some e).
  { unfold page_failure. destruct Hfail as [-> | (r & -> & Hst & ->)]; [reflexivity |].
    assert (Hok : ok r = false).
    { unfold ok. apply andb_false_iff.
      destruct Hst; [left; apply Nat.leb_gt | right; apply Nat.leb_gt]; lia. }
    rewrite Hok. reflexivity. }
  rewrite (fetchRepositoryNames_with_token token fuel s Htok Htruthy).
  rewrite requests_snoc.
  replace fuel with (n + S (fuel - S n)) by lia.
  rewrite (fetch_loop_advance n (S (fuel - S n)) token 1 [] s resp data).
  - change (1 + n) with (S n). simpl fetch_loop. unfold bind.
    rewrite (fetch_page_failure token (S n) _ s e Hpf). unfold ret.
    cbn [fst snd app]. rewrite <- !app_assoc. reflexivity.
  - intros k Hk. destruct (Hserved k ltac:(lia)) as [Hs Hn].
    split; [exact Hs | apply next_marker_has_next, Hn].
Qed.

(** Every file of the output directory after [processRepository] was
    there before or is the capture this call has written. *)
Lemma processRepository_files (repoName : string) (b : Browser) (s : Store)
    (f : string) :
  f ∈ default ∅ (files (processRepository repoName b s).1.2) ->
  f ∈ default ∅ (files s)
  \/ (f = png_path repoName
      /\ Screenshot (opened s) f false viewport_clip
         ∈ (processRepository repoName b s).2).
Proof.
  unfold_script. unfold png_path. simpl.
  destruct (newPage_result (pages b (opened s))) as [[] | e1]; simpl; [| auto].
  destruct (setViewport_result (pages b (opened s))) as [[] | e2]; simpl; [| auto].
  destruct (goto_result (pages b (opened s))) as [response | e3]; simpl; [| auto].
  destruct (failed_to_load response); simpl.
  - destruct (close_result (pages b (opened s))) as [[] | e5]; simpl; auto.
  - destruct (screenshot_result (pages b (opened s))) as [[] | e4]; simpl; [| auto].
    destruct (close_result (pages b (opened s))) as [[] | e5]; simpl;
      intros Hin; apply elem_of_union in Hin as [Hin | Hin]; auto;
      apply elem_of_singleton in Hin; subst f; right;
      (split; [reflexivity | in_trace]).
Qed.

Lemma process_all_files (REPO_NAMES : list string) (b : Browser) (s : Store)
    (f : string) :
  f ∈ default ∅ (files (process_all REPO_NAMES b s).1.2) ->
  f ∈ default ∅ (files s)
  \/ exists repoName p,
       repoName ∈ REPO_NAMES
       /\ f = png_path repoName
       /\ Screenshot p f false viewport_clip ∈ (process_all REPO_NAMES b s).2.
Proof.
  revert s. induction REPO_NAMES as [| n rest IH]; intros s.
  - simpl. auto.
  - destruct (processRepository_returns n b s) as (s1 & t1 & H1 & _).
    rewrite (process_all_cons n rest b s s1 t1 H1). simpl.
    intros Hin. destruct (IH s1 Hin) as [Hold | (repoName & p & Hr & Hf & Hs)].
    + pose proof (processRepository_files n b s f) as Hp.
      rewrite H1 in Hp. simpl in Hp.
      destruct (Hp Hold) as [Hs | [Hf Hs]]; [auto |].
      right. exists n, (opened s). split; [apply list_elem_of_here |].
      split; [exact Hf |]. apply elem_of_app. auto.
    + right. exists repoName, p. split; [apply list_elem_of_further, Hr |].
      split; [exact Hf |]. apply elem_of_app. auto.
Qed.

(** C2 (as amended).  On every run with a non-empty work list, whether
    the removal succeeds or not, [fs.rm] is called on the output directory
    and then [fs.mkdir], before any call is made on a browser.  When the
    removal succeeds (a missing directory is not an error) and the
    creation succeeds the directory is empty before the captures; when the
    removal succeeds every file in the directory at the end of the run is
    the [<name>.png] of a name of the work list, written by a screenshot of
    this run. *)
Theorem output_directory_fresh_when_removal_succeeds
    (fuel : nat) (dir : option (gset string))
    (REPO_NAMES : list string) (t0 : list Event) :
  fetchRepositoryNames fuel (initial dir) = (Normal REPO_NAMES, initial dir, t0) ->
  REPO_NAMES <> [] ->
  exists st final t1,
    run fuel dir
    = (Some st, final,
       t0 ++ cleaning_line :: rm_call :: rm_report ++ mkdir_call :: t1)
    /\ (forall ev, ev ∈ t0 ++ cleaning_line :: rm_call :: rm_report ->
                   is_browser_call ev = false)
    /\ (rm_result env = Resolves tt ->
        rm_report = [Console LLog ["Successfully removed directory: " +:+ OUTPUT_DIR]])
    /\ (rm_result env = Resolves tt ->
        mkdir_result env = Resolves tt ->
        forall s,
          (removeDirectory OUTPUT_DIR ;;
           fs_mkdir (mkdir_result env) OUTPUT_DIR OUTPUT_DIR) s
          = (Normal tt, with_files s (Some ∅),
             [rm_call;
              Console LLog ["Successfully removed directory: " +:+ OUTPUT_DIR];
              mkdir_call]))
    /\ (rm_result env = Resolves tt ->
        forall f,
          f ∈ default ∅ final ->
          exists repoName p,
            repoName ∈ REPO_NAMES
            /\ f = png_path repoName
            /\ Screenshot p f false viewport_clip ∈ t1).
Proof.
  intros Hf Hne.
  assert (Hrep : rm_result env = Resolves tt ->
                 rm_report
                 = [Console LLog ["Successfully removed directory: " +:+ OUTPUT_DIR]]).
  { intros Hrm. unfold rm_report. rewrite Hrm. reflexivity. }
  assert (Hdir : rm_result env = Resolves tt -> forall d, dir_after_rm d = None).
  { intros Hrm d. unfold dir_after_rm. rewrite Hrm. reflexivity. }
  assert (Hquiet : forall ev, ev ∈ t0 ++ cleaning_line :: rm_call :: rm_report ->
                              is_browser_call ev = false).
  { pose proof (fetchRepositoryNames_frame fuel (initial dir)) as (_ & Hl & _).
    rewrite Hf in Hl. simpl in Hl. intros ev Hin.
    apply elem_of_app in Hin as [Hin | Hin].
    - exact (listing_only_no_browser_call t0 ev Hl Hin).
    - apply elem_of_cons in Hin as [-> | Hin]; [reflexivity |].
      apply elem_of_cons in Hin as [-> | Hin]; [reflexivity |].
      revert Hin. unfold rm_report.
      destruct (rm_result env) as [[] | e];
        [| destruct (bool_decide (code e ≠ Some "ENOENT"))];
        intros Hin; split_trace Hin; subst ev; reflexivity. }
  assert (Hfresh : rm_result env = Resolves tt ->
        mkdir_result env = Resolves tt ->
        forall s,
          (removeDirectory OUTPUT_DIR ;;
           fs_mkdir (mkdir_result env) OUTPUT_DIR OUTPUT_DIR) s
          = (Normal tt, with_files s (Some ∅),
             [rm_call;
              Console LLog ["Successfully removed directory: " +:+ OUTPUT_DIR];
              mkdir_call])).
  { intros Hrm Hm s. unfold bind at 1.
    rewrite removeDirectory_returns, (Hrep Hrm), (Hdir Hrm).
    unfold_script. simpl. rewrite Hm. simpl. rewrite String.eqb_refl. reflexivity. }
  unfold run. rewrite (main_with_work fuel (initial dir) REPO_NAMES t0 Hf Hne).
  destruct (mkdir_result env) as [[] | e] eqn:Hm.
  - destruct (launch_result env) as [b | e] eqn:Hl.
    + rewrite (main_try_launched REPO_NAMES (initial dir) b Hm Hl). simpl.
      assert (Hst : exists st, exit_status (teardown_completion b) = Some st).
      { unfold teardown_completion. destruct (browser_close_result b); simpl; eauto. }
      destruct Hst as [st ->].
      exists st, (files (process_all REPO_NAMES b (loop_store (initial dir) b)).1.2),
        (launching_line :: launch_call
         :: (process_all REPO_NAMES b (loop_store (initial dir) b)).2 ++ teardown b).
      split; [reflexivity |].
      split; [exact Hquiet |]. split; [exact Hrep |]. split; [exact Hfresh |].
      intros Hrm f Hin.
      destruct (process_all_files REPO_NAMES b (loop_store (initial dir) b) f Hin)
        as [Hold | (repoName & p & Hr & Hp & Hs)].
      * unfold loop_store in Hold. simpl in Hold. rewrite (Hdir Hrm) in Hold.
        simpl in Hold. apply elem_of_empty in Hold. destruct Hold.
      * exists repoName, p. split; [exact Hr |]. split; [exact Hp |].
        do 2 apply list_elem_of_further. apply elem_of_app. auto.
    + unfold try_finally.
      rewrite (main_try_launch_rejects REPO_NAMES (initial dir) e Hm Hl).
      simpl.
      exists 1, (Some (default ∅ (dir_after_rm dir))),
        [launching_line; launch_call; critical_line e].
      split; [reflexivity |].
      split; [exact Hquiet |]. split; [exact Hrep |]. split; [exact Hfresh |].
      intros Hrm f Hin. rewrite (Hdir Hrm) in Hin. simpl in Hin.
      apply elem_of_empty in Hin. destruct Hin.
  - unfold try_finally.
    rewrite (main_try_mkdir_rejects REPO_NAMES (initial dir) e Hm).
    simpl.
    exists 1, (dir_after_rm dir), [critical_line e].
    split; [reflexivity |].
    split; [exact Hquiet |]. split; [exact Hrep |].
    split; [intros _ H; discriminate H |].
    intros Hrm f Hin. rewrite (Hdir Hrm) in Hin. simpl in Hin.
    apply elem_of_empty in Hin. destruct Hin.
Qed.

(** C10 (as amended).  [removeDirectory] never rejects: whatever error
    [fs.rm] raises is caught inside it and at most logged (not logged
    when its code is [ENOENT]), the store is left as it was, and the run
    goes on to [fs.mkdir].  The process ends with a status other than 0
    only when [fs.mkdir] or [puppeteer.launch] rejects, which the
    top-level [catch] reports before [process.exit(1)], or when
    [browser.close()] rejects in the [finally] block, which leaves the
    promise of [main] rejected; it ends with 0 when the work list is
    empty and whenever setup and teardown succeed, whatever happened to
    the removal and to each repository. *)
Theorem exit_status_policy
    (fuel : nat) (dir : option (gset string))
    (REPO_NAMES : list string) (t0 : list Event) :
  fetchRepositoryNames fuel (initial dir) = (Normal REPO_NAMES, initial dir, t0) ->
  (forall dirPath s,
     exists s' t,
       removeDirectory dirPath s = (Normal tt, s', t)
       /\ forall e,
            rm_result env = Rejects e ->
            s' = s
            /\ t = FsRm dirPath true true
                   :: (if bool_decide (code e ≠ Some "ENOENT")
                       then [Console LError ["Error removing directory "
                                             +:+ dirPath +:+ ":"; message e]]
                       else []))
  /\ (REPO_NAMES <> [] -> mkdir_call ∈ (run fuel dir).2)
  /\ exists st,
       (run fuel dir).1.1 = Some st
       /\ (st <> 0 ->
           st = 1
           /\ REPO_NAMES <> []
           /\ ((exists e,
                  (mkdir_result env = Rejects e
                   \/ (mkdir_result env = Resolves tt
                       /\ launch_result env = Rejects e))
                  /\ critical_line e ∈ (run fuel dir).2)
               \/ (exists b e,
                     mkdir_result env = Resolves tt
                     /\ launch_result env = Resolves b
                     /\ browser_close_result b = Rejects e
                     /\ BrowserClose ∈ (run fuel dir).2)))
       /\ (REPO_NAMES = [] -> st = 0)
       /\ (forall b,
             mkdir_result env = Resolves tt ->
             launch_result env = Resolves b ->
             browser_close_result b = Resolves tt ->
             st = 0).
Proof.
  intros Hf. split; [| split].
  - intros dirPath s. unfold_script. simpl.
    destruct (rm_result env) as [[] | e]; simpl.
    + destruct (String.eqb dirPath OUTPUT_DIR); simpl;
        eexists _, _; (split; [reflexivity |]); intros e H; discriminate H.
    + destruct (bool_decide (code e ≠ Some "ENOENT")) eqn:Hc; simpl;
        eexists _, _; (split; [reflexivity |]);
        intros e' H; injection H as <-; rewrite Hc; auto.
  - intros Hne. unfold run.
    rewrite (main_with_work fuel (initial dir) REPO_NAMES t0 Hf Hne).
    destruct (mkdir_result env) as [[] | e] eqn:Hm.
    + destruct (launch_result env) as [b | e] eqn:Hl.
      * rewrite (main_try_launched REPO_NAMES (initial dir) b Hm Hl). simpl.
        apply elem_of_app. right. do 2 apply list_elem_of_further.
        apply elem_of_app. right. apply list_elem_of_here.
      * unfold try_finally.
        rewrite (main_try_launch_rejects REPO_NAMES (initial dir) e Hm Hl). simpl.
        apply elem_of_app. right. do 2 apply list_elem_of_further.
        apply elem_of_app. right. apply list_elem_of_here.
    + unfold try_finally.
      rewrite (main_try_mkdir_rejects REPO_NAMES (initial dir) e Hm). simpl.
      apply elem_of_app. right. do 2 apply list_elem_of_further.
      apply elem_of_app. right. apply list_elem_of_here.
  - unfold run. destruct REPO_NAMES as [| n rest].
    + rewrite (main_without_work fuel (initial dir) t0 Hf). simpl.
      exists 0. split; [reflexivity |]. split; [intros H; destruct H; reflexivity |].
      split; reflexivity.
    + assert (Hne : n :: rest <> []) by discriminate.
      rewrite (main_with_work fuel (initial dir) (n :: rest) t0 Hf Hne).
      destruct (mkdir_result env) as [[] | e] eqn:Hm.
      * destruct (launch_result env) as [b | e] eqn:Hl.
        -- rewrite (main_try_launched (n :: rest) (initial dir) b Hm Hl).
           cbn [fst snd]. unfold teardown_completion, teardown.
           destruct (browser_close_result b) as [[] | e] eqn:Hc; simpl.
           ++ exists 0. split; [reflexivity |].
              split; [intros H; destruct H; reflexivity |].
              split; [discriminate | reflexivity].
           ++ exists 1. split; [reflexivity |]. split.
              ** intros _. split; [reflexivity |]. split; [exact Hne |].
                 right. exists b, e. repeat split; auto.
                 apply elem_of_app. right. do 2 apply list_elem_of_further.
                 apply elem_of_app. right. do 3 apply list_elem_of_further.
                 apply elem_of_app. right. apply list_elem_of_here.
              ** split; [discriminate |].
                 intros b' _ Hb' Hc'. injection Hb' as <-.
                 rewrite Hc in Hc'. discriminate Hc'.
        -- unfold try_finally.
           rewrite (main_try_launch_rejects (n :: rest) (initial dir) e Hm Hl).
           cbn [fst snd exit_status].
           exists 1. split; [reflexivity |]. split.
           ++ intros _. split; [reflexivity |]. split; [exact Hne |].
              left. exists e. split; [auto |].
              apply elem_of_app. right. do 2 apply list_elem_of_further.
              apply elem_of_app. right. in_trace.
           ++ split; [discriminate |]. intros b _ Hb. discriminate Hb.
      * unfold try_finally.
        rewrite (main_try_mkdir_rejects (n :: rest) (initial dir) e Hm).
        cbn [fst snd exit_status].
        exists 1. split; [reflexivity |]. split.
        -- intros _. split; [reflexivity |]. split; [exact Hne |].
           left. exists e. split; [auto |].
           apply elem_of_app. right. do 2 apply list_elem_of_further.
           apply elem_of_app. right. in_trace.
        -- split; [discriminate |]. intros b H. discriminate H.
Qed.

(** ** Further properties of the lister *)

Lemma requests_cons (token : string) (first count : nat) :
  requests token first (S count)
  = Fetch (api_url first) (request_headers token) :: requests token (S first) count.
Proof. reflexivity. Qed.

(** Whatever the endpoint answers, the loop requests consecutive pages,
    each once. *)
Lemma fetch_loop_requests (fuel : nat) (token : string) (page : nat)
    (acc : list string) (s : Store) :
  exists m,
    m <= fuel
    /\ filter is_fetch (fetch_loop fuel token page acc s).2 = requests token page m
    /\ (forall names, (fetch_loop fuel token page acc s).1.1 = Normal names -> 1 <= m)
    /\ ((fetch_loop fuel token page acc s).1.1 = Unfinished -> m = fuel).
Proof.
  revert page acc. induction fuel as [| fuel IH]; intros page acc; simpl.
  - exists 0. unfold unfinished. simpl. repeat split; auto. discriminate.
  - unfold bind. destruct (page_failure page) as [e |] eqn:Hpf.
    + rewrite (fetch_page_failure token page acc s e Hpf). simpl.
      exists 1. repeat split; try lia. discriminate.
    + destruct (page_failure_none page Hpf) as (r & data & Hf & Hok & Hj).
      rewrite (fetch_page_success token page acc s r data Hf Hok Hj).
      destruct (has_next (link r)).
      * destruct (IH (S page) (acc ++ filter_names data)) as (m & Hm & Hreq & Hn & Hu).
        destruct (fetch_loop fuel token (S page) (acc ++ filter_names data) s)
          as [[c s2] t2]. simpl in *.
        exists (S m). split; [lia |]. split.
        -- rewrite filter_cons. simpl. rewrite Hreq, requests_cons. reflexivity.
        -- split; [intros; lia |]. intros Hc. rewrite (Hu Hc). reflexivity.
      * simpl. exists 1. repeat split; try lia. discriminate.
Qed.

(** X1.  With a credential, whatever the endpoint answers and however long
    the loop runs, the requests made are those for pages 1, 2, ..., m in
    this order, each made once and each carrying the user agent and the
    [Authorization: token ...] header; a finished listing has made at least
    one. *)
Theorem lister_requests_consecutive_pages
    (token : string) (fuel : nat) (s : Store) :
  ORG_PAT_TOKEN env = Some token ->
  truthy (Some token) = true ->
  exists m,
    m <= fuel
    /\ filter is_fetch (fetchRepositoryNames fuel s).2
       = map (fun k => Fetch (api_url k)
                         [("User-Agent", "GitHub-Actions-Repo-Preview-Generator");
                          ("Authorization", "token " +:+ token)])
             (seq 1 m)
    /\ (forall names, (fetchRepositoryNames fuel s).1.1 = Normal names -> 1 <= m).
Proof.
  intros Htok Htruthy.
  rewrite (fetchRepositoryNames_with_token token fuel s Htok Htruthy).
  destruct (fetch_loop_requests fuel token 1 [] s) as (m & Hm & Hreq & Hn & _).
  destruct (fetch_loop fuel token 1 [] s) as [[c s1] t1]. simpl in *.
  exists m. split; [exact Hm |].
  destruct c as [names | e | n |]; simpl.
  - rewrite filter_cons, filter_app. simpl. rewrite Hreq, app_nil_r.
    split; [reflexivity |]. intros names' _. eapply Hn. reflexivity.
  - rewrite filter_cons. simpl. split; [exact Hreq |]. discriminate.
  - rewrite filter_cons. simpl. split; [exact Hreq |]. discriminate.
  - rewrite filter_cons. simpl. split; [exact Hreq |]. discriminate.
Qed.

(** X2.  [fetchRepositoryNames] never throws and never ends the process:
    a rejected [fetch], an error status, a body that is not JSON or not an
    array of records are all caught inside it.  It leaves the store as it
    was and does nothing but requests and console lines. *)
Theorem lister_catches_every_error (fuel : nat) (s : Store) :
  (forall e, (fetchRepositoryNames fuel s).1.1 <> Throw e)
  /\ (forall n, (fetchRepositoryNames fuel s).1.1 <> Exit n)
  /\ (fetchRepositoryNames fuel s).1.2 = s
  /\ (forall ev, ev ∈ (fetchRepositoryNames fuel s).2 ->
                 is_fetch ev = true \/ is_console ev = true).
Proof.
  destruct (fetchRepositoryNames_frame fuel s) as (Hs & Ht & Hc).
  split; [| split; [| split; [exact Hs |]]].
  - intros e He. destruct Hc as [[names Hc] | Hc]; rewrite Hc in He; discriminate He.
  - intros n He. destruct Hc as [[names Hc] | Hc]; rewrite Hc in He; discriminate He.
  - intros ev Hin. rewrite forallb_forall in Ht.
    apply list_elem_of_In in Hin. specialize (Ht ev Hin).
    destruct ev; simpl in *; auto; discriminate Ht.
Qed.

(** X3.  The loop has no page limit of its own: while every page is
    served with the next-page marker it keeps requesting, so that no
    amount of fuel lets it finish, and it has then made one request per
    unit of fuel. *)
Theorem lister_has_no_page_limit
    (token : string) (resp : nat -> Response) (data : nat -> list Repo)
    (fuel : nat) (s : Store) :
  ORG_PAT_TOKEN env = Some token ->
  truthy (Some token) = true ->
  (forall k, 1 <= k -> page_served k (resp k) (data k) /\ next_marker (resp k)) ->
  fetchRepositoryNames fuel s
  = (Unfinished, s, fetching_line :: requests token 1 fuel).
Proof.
  intros Htok Htruthy Hall.
  rewrite (fetchRepositoryNames_with_token token fuel s Htok Htruthy).
  replace fuel with (fuel + 0) at 1 by lia.
  rewrite (fetch_loop_advance fuel 0 token 1 [] s resp data).
  - simpl. unfold unfinished. simpl. rewrite app_nil_r. reflexivity.
  - intros k Hk. destruct (Hall k ltac:(lia)) as [Hs Hn].
    split; [exact Hs | apply next_marker_has_next, Hn].
Qed.

(** X4.  A served page whose body cannot be used -- [response.json()]
    rejects, or the value is not an array of repository records -- ends the
    listing like a failed request, whether or not the response carries the
    next-page marker: the error is logged, no further page is requested and
    the names of the pages before it are returned. *)
Theorem unusable_body_stops_pagination
    (token : string) (fuel : nat) (s : Store)
    (n : nat) (resp : nat -> Response) (data : nat -> list Repo)
    (r : Response) (e : JsError) :
  ORG_PAT_TOKEN env = Some token ->
  truthy (Some token) = true ->
  (forall k, 1 <= k <= n -> page_served k (resp k) (data k) /\ next_marker (resp k)) ->
  fetch env (api_url (S n)) = Resolves r ->
  ok r = true ->
  (json r = Rejects e \/ json r = Resolves (JsonOther e)) ->
  n < fuel ->
  fetchRepositoryNames fuel s
  = (Normal (names_of_pages data 1 n), s,
     fetching_line :: requests token 1 (S n)
     ++ [fetch_error_line e; found_line (length (names_of_pages data 1 n))]).
Proof.
  intros Htok Htruthy Hserved Hf Hok Hbody Hfuel.
  assert (Hpf : page_failure (S n) = Some e).
  { unfold page_failure. rewrite Hf, Hok. simpl.
    destruct Hbody as [-> | ->]; reflexivity. }
  rewrite (fetchRepositoryNames_with_token token fuel s Htok Htruthy).
  rewrite requests_snoc.
  replace fuel with (n + S (fuel - S n)) by lia.
  rewrite (fetch_loop_advance n (S (fuel - S n)) token 1 [] s resp data).
  - change (1 + n) with (S n). simpl fetch_loop. unfold bind.
    rewrite (fetch_page_failure token (S n) _ s e Hpf). unfold ret.
    cbn [fst snd app]. rewrite <- !app_assoc. reflexivity.
  - intros k Hk. destruct (Hserved k ltac:(lia)) as [Hs Hn].
    split; [exact Hs | apply next_marker_has_next, Hn].
Qed.

(** X5.  A credential variable that is set but empty counts as missing:
    the fatal condition is logged, no request is made, the directory is
    left as it was and the run ends with status 0. *)
Theorem empty_credential_counts_as_missing
    (fuel : nat) (dir : option (gset string)) :
  ORG_PAT_TOKEN env = Some "" ->
  run fuel dir
  = (Some 0, dir,
     [fetching_line;
      Console LError ["FATAL: ORG_PAT_TOKEN environment variable not set. Cannot fetch dynamic repository list."];
      no_repositories_line]).
Proof.
  intros Htok. unfold run, main, fetchRepositoryNames.
  unfold console_log, console_error, emit, bind, ret. rewrite Htok. reflexivity.
Qed.

(** X6.  Whenever the listing comes back empty -- the endpoint is down on
    the first page, or none of the records is kept -- [main] stops before
    the setup: the output directory and the previews it holds are left as
    they were, nothing is called on the filesystem or a browser, and the
    run ends with status 0. *)
Theorem empty_listing_leaves_directory
    (fuel : nat) (dir : option (gset string)) :
  (fetchRepositoryNames fuel (initial dir)).1.1 = Normal [] ->
  (run fuel dir).1 = (Some 0, dir)
  /\ (run fuel dir).2
     = (fetchRepositoryNames fuel (initial dir)).2 ++ [no_repositories_line]
  /\ (forall ev, ev ∈ (run fuel dir).2 ->
                 is_fs_call ev = false /\ is_browser_call ev = false).
Proof.
  intros Hempty.
  destruct (fetchRepositoryNames_frame fuel (initial dir)) as (Hs & Ht & _).
  destruct (fetchRepositoryNames fuel (initial dir)) as [[c s0] t0] eqn:Hf.
  simpl in *. subst c s0.
  unfold run. rewrite (main_without_work fuel (initial dir) t0 Hf). simpl.
  split; [reflexivity |]. split; [reflexivity |].
  intros ev Hin. apply elem_of_app in Hin as [Hin | Hin].
  - rewrite forallb_forall in Ht. apply list_elem_of_In in Hin.
    specialize (Ht ev Hin). destruct ev; simpl in *; auto; discriminate Ht.
  - split_trace Hin. subst ev. auto.
Qed.

(** ** Further properties of the page capturer *)

(** All the ways the browser can answer the calls of one
    [processRepository]. *)
Ltac page_cases b s :=
  destruct (newPage_result (pages b (opened s))) as [[] | ?e1] eqn:E1; simpl;
  [ destruct (setViewport_result (pages b (opened s))) as [[] | ?e2] eqn:E2; simpl;
    [ destruct (goto_result (pages b (opened s))) as [?response | ?e3] eqn:E3; simpl;
      [ destruct (failed_to_load response) eqn:Eload; simpl;
        [ | destruct (screenshot_result (pages b (opened s))) as [[] | ?e4] eqn:E4; simpl ];
        destruct (close_result (pages b (opened s))) as [[] | ?e5] eqn:E5; simpl
      | ]
    | ]
  | ].

(** An equation between two different console lines or calls. *)
Ltac absurd_event H :=
  first [ discriminate H | injection H as H; cbv in H; discriminate H ].

Ltac not_in_trace H :=
  repeat (apply elem_of_cons in H as [H | H]; [absurd_event H |]);
  apply elem_of_nil in H; destruct H.

(** The store after [processRepository]: one more page context opened, and
    the capture added to the directory exactly when the screenshot
    resolves. *)
Lemma processRepository_store (repoName : string) (b : Browser) (s : Store) :
  (processRepository repoName b s).1.2
  = {| files := if screenshot_resolves (pages b (opened s))
                then Some ({[ png_path repoName ]} ∪ default ∅ (files s))
                else files s;
       browser := browser s;
       opened := S (opened s) |}.
Proof.
  unfold_script. unfold screenshot_resolves, png_path. simpl.
  page_cases b s; rewrite ?Eload; reflexivity.
Qed.

(** The trace of [processRepository] depends on the store through the
    number of page contexts opened only. *)
Lemma processRepository_trace (repoName : string) (b : Browser) (s s' : Store) :
  opened s = opened s' ->
  (processRepository repoName b s).2 = (processRepository repoName b s').2.
Proof.
  intros Ho. unfold_script. simpl. rewrite <- Ho.
  page_cases b s; reflexivity.
Qed.

(** X7.  [processRepository] prints the SUCCESS line exactly when the page
    opened, was sized, loaded with a successful response, the screenshot
    resolved and the page closed without an exception; the capture is then
    in the output directory and the call has printed neither a warning nor
    an error. *)
Theorem success_reported_iff_fully_captured
    (repoName : string) (b : Browser) (s : Store) :
  (success_line repoName ∈ (processRepository repoName b s).2
   <-> fully_captured (pages b (opened s)) = true)
  /\ (fully_captured (pages b (opened s)) = true ->
      png_path repoName ∈ default ∅ (files (processRepository repoName b s).1.2)
      /\ forall l args,
           Console l args ∈ (processRepository repoName b s).2 -> l = LLog).
Proof.
  rewrite processRepository_store.
  unfold_script. unfold fully_captured, screenshot_resolves, success_line. simpl.
  page_cases b s; rewrite ?Eload; simpl;
    (split;
     [ split; [ intros Hin; try reflexivity; exfalso; not_in_trace Hin
              | intros Hc; try discriminate Hc; in_trace ]
     | intros Hc; try discriminate Hc ]).
  split.
  - apply elem_of_union. left. apply elem_of_singleton. reflexivity.
  - intros l args Hin. split_trace Hin; try discriminate Hin;
      injection Hin as -> _; reflexivity.
Qed.

(** X8.  When the screenshot resolves and the closing of the page then
    throws, the capture is in the output directory although the repository
    is reported with FATAL ERROR and no SUCCESS line is printed. *)
Theorem capture_saved_but_reported_fatal
    (repoName : string) (b : Browser) (s : Store) (e : JsError) :
  screenshot_resolves (pages b (opened s)) = true ->
  close_result (pages b (opened s)) = Rejects e ->
  png_path repoName ∈ default ∅ (files (processRepository repoName b s).1.2)
  /\ fatal_line repoName e ∈ (processRepository repoName b s).2
  /\ success_line repoName ∉ (processRepository repoName b s).2.
Proof.
  intros Hshot Hclose. rewrite processRepository_store, Hshot. simpl.
  split; [apply elem_of_union; left; apply elem_of_singleton; reflexivity |].
  revert Hshot Hclose.
  unfold_script. unfold screenshot_resolves, fatal_line, success_line. simpl.
  page_cases b s; rewrite ?Eload; simpl;
    intros Hshot Hclose; try discriminate Hshot; try discriminate Hclose.
  injection Hclose as <-. split; [in_trace |].
  intros Hin. not_in_trace Hin.
Qed.

(** The directory after the loop, exactly. *)
Lemma process_all_directory (REPO_NAMES : list string) (b : Browser) (s : Store)
    (dir : gset string) :
  files s = Some dir ->
  files (process_all REPO_NAMES b s).1.2
  = Some (written REPO_NAMES b (opened s) ∪ dir).
Proof.
  revert s dir. induction REPO_NAMES as [| n rest IH]; intros s dir Hdir.
  - simpl. rewrite Hdir. f_equal. rewrite (left_id_L ∅ (∪)). reflexivity.
  - destruct (processRepository_returns n b s) as (s1 & t1 & H1 & Ho1 & _).
    rewrite (process_all_cons n rest b s s1 t1 H1). simpl.
    pose proof (processRepository_store n b s) as Hs1.
    rewrite H1 in Hs1. simpl in Hs1.
    destruct (screenshot_resolves (pages b (opened s))).
    + rewrite (IH s1 ({[ png_path n ]} ∪ dir)).
      * rewrite Ho1. f_equal.
        rewrite (assoc_L (∪)), (comm_L (∪) (written rest b _)). reflexivity.
      * rewrite Hs1, Hdir. reflexivity.
    + rewrite (IH s1 dir).
      * rewrite Ho1. f_equal. rewrite (left_id_L ∅ (∪)). reflexivity.
      * rewrite Hs1. exact Hdir.
Qed.

Lemma process_all_trace (REPO_NAMES : list string) (b : Browser) (s s' : Store) :
  opened s = opened s' ->
  (process_all REPO_NAMES b s).2 = (process_all REPO_NAMES b s').2.
Proof.
  revert s s'. induction REPO_NAMES as [| n rest IH]; intros s s' Ho.
  - reflexivity.
  - destruct (processRepository_returns n b s) as (s1 & t1 & H1 & Ho1 & _).
    destruct (processRepository_returns n b s') as (s1' & t1' & H1' & Ho1' & _).
    rewrite (process_all_cons n rest b s s1 t1 H1).
    rewrite (process_all_cons n rest b s' s1' t1' H1'). simpl.
    pose proof (processRepository_trace n b s s' Ho) as Ht.
    rewrite H1, H1' in Ht. simpl in Ht. subst t1'.
    f_equal. apply IH. congruence.
Qed.

Lemma elem_of_written (REPO_NAMES : list string) (b : Browser) (n : nat) (f : string) :
  f ∈ written REPO_NAMES b n
  <-> exists i repoName,
        REPO_NAMES !! i = Some repoName
        /\ screenshot_resolves (pages b (n + i)) = true
        /\ f = png_path repoName.
Proof.
  revert n. induction REPO_NAMES as [| r rest IH]; intros n; simpl.
  - split; [intros H; apply elem_of_empty in H; destruct H |].
    intros (i & repoName & Hi & _). rewrite lookup_nil in Hi. discriminate Hi.
  - rewrite elem_of_union, IH. split.
    + intros [H | (i & repoName & Hi & Hr & Hf)].
      * destruct (screenshot_resolves (pages b n)) eqn:Hr.
        -- apply elem_of_singleton in H. exists 0, r.
           rewrite Nat.add_0_r. auto.
        -- apply elem_of_empty in H. destruct H.
      * exists (S i), repoName. replace (n + S i) with (S n + i) by lia. auto.
    + intros (i & repoName & Hi & Hr & Hf). destruct i as [| i]; simpl in Hi.
      * injection Hi as <-. rewrite Nat.add_0_r in Hr. rewrite Hr.
        left. apply elem_of_singleton. exact Hf.
      * right. exists i, repoName. replace (S n + i) with (n + S i) by lia. auto.
Qed.

(** X9.  Over a directory that exists, the loop adds exactly the
    [<name>.png] of the names whose screenshot resolved: nothing else is
    written, and no file that was there is removed. *)
Theorem loop_writes_exactly_the_resolved_captures
    (REPO_NAMES : list string) (b : Browser) (s : Store) (dir : gset string) :
  files s = Some dir ->
  exists final,
    files (process_all REPO_NAMES b s).1.2 = Some final
    /\ dir ⊆ final
    /\ forall f,
         f ∈ final <->
         f ∈ dir
         \/ exists i repoName,
              REPO_NAMES !! i = Some repoName
              /\ screenshot_resolves (pages b (opened s + i)) = true
              /\ f = png_path repoName.
Proof.
  intros Hdir. exists (written REPO_NAMES b (opened s) ∪ dir).
  split; [apply process_all_directory, Hdir |]. split; [apply union_subseteq_r |].
  intros f. rewrite elem_of_union.
  rewrite elem_of_written. split; intros [H | H]; auto.
Qed.

(** ** Further properties of the run *)

(** The lister does not read the store. *)
Lemma fetch_page_any_store (token : string) (page : nat) (acc : list string)
    (s s' : Store) :
  (fetch_page token page acc s).1.1 = (fetch_page token page acc s').1.1
  /\ (fetch_page token page acc s).2 = (fetch_page token page acc s').2.
Proof.
  destruct (page_failure page) as [e |] eqn:Hpf.
  - rewrite !(fetch_page_failure token page acc _ e Hpf). auto.
  - destruct (page_failure_none page Hpf) as (r & data & Hf & Hok & Hj).
    rewrite !(fetch_page_success token page acc _ r data Hf Hok Hj). auto.
Qed.

Lemma fetch_loop_any_store (fuel : nat) (token : string) (page : nat)
    (acc : list string) (s s' : Store) :
  (fetch_loop fuel token page acc s).1.1 = (fetch_loop fuel token page acc s').1.1
  /\ (fetch_loop fuel token page acc s).2 = (fetch_loop fuel token page acc s').2.
Proof.
  revert page acc. induction fuel as [| fuel IH]; intros page acc; simpl.
  - auto.
  - unfold bind.
    destruct (fetch_page_any_store token page acc s s') as [Hc Ht].
    destruct (fetch_page_frame token page acc s) as (Hs & _ & _).
    destruct (fetch_page_frame token page acc s') as (Hs' & _ & _).
    destruct (fetch_page token page acc s) as [[c s1] t1].
    destruct (fetch_page token page acc s') as [[c' s1'] t1'].
    simpl in *. subst c' t1' s1 s1'.
    destruct c as [[[[] acc'] page'] | e | n |]; simpl; auto.
    destruct (IH page' acc') as [Hc2 Ht2].
    destruct (fetch_loop fuel token page' acc' s) as [[c2 s2] t2].
    destruct (fetch_loop fuel token page' acc' s') as [[c2' s2'] t2'].
    simpl in *. subst c2' t2'. auto.
Qed.

Lemma fetchRepositoryNames_any_store (fuel : nat) (s s' : Store) :
  (fetchRepositoryNames fuel s).1.1 = (fetchRepositoryNames fuel s').1.1
  /\ (fetchRepositoryNames fuel s).2 = (fetchRepositoryNames fuel s').2.
Proof.
  unfold fetchRepositoryNames, console_log, console_error, emit, bind, ret. simpl.
  destruct (truthy (ORG_PAT_TOKEN env)); simpl; [| auto].
  destruct (fetch_loop_any_store fuel (default "" (ORG_PAT_TOKEN env)) 1 [] s s')
    as [Hc Ht].
  destruct (fetch_loop fuel (default "" (ORG_PAT_TOKEN env)) 1 [] s) as [[c s1] t1].
  destruct (fetch_loop fuel (default "" (ORG_PAT_TOKEN env)) 1 [] s') as [[c' s1'] t1'].
  simpl in *. subst c' t1'. destruct c; auto.
Qed.

(** What the lister hands to [main], from any store. *)
Lemma lister_outcome (fuel : nat) (s : Store) :
  (exists names, fetchRepositoryNames fuel s
                 = (Normal names, s, (fetchRepositoryNames fuel s).2))
  \/ fetchRepositoryNames fuel s = (Unfinished, s, (fetchRepositoryNames fuel s).2).
Proof.
  destruct (fetchRepositoryNames_frame fuel s) as (Hs & _ & Hc).
  destruct (fetchRepositoryNames fuel s) as [[c s1] t1]. simpl in *. subst s1.
  destruct Hc as [[names ->] | ->]; eauto.
Qed.

Lemma main_unfinished (fuel : nat) (s : Store) (t0 : list Event) :
  fetchRepositoryNames fuel s = (Unfinished, s, t0) ->
  main fuel s = (Unfinished, s, t0).
Proof. intros Hf. unfold main, bind. rewrite Hf. reflexivity. Qed.

(** The run after a listing that returned [REPO_NAMES]. *)
Lemma run_after_listing (fuel : nat) (dir : option (gset string))
    (REPO_NAMES : list string) (t0 : list Event) :
  fetchRepositoryNames fuel (initial dir) = (Normal REPO_NAMES, initial dir, t0) ->
  (run fuel dir).1.2 = final_directory REPO_NAMES dir
  /\ (run fuel dir).2
     = t0 ++ match REPO_NAMES with
             | [] => [no_repositories_line]
             | _ :: _ =>
                 cleaning_line :: rm_call :: rm_report
                 ++ mkdir_call
                    :: match mkdir_result env with
                       | Rejects e => [critical_line e]
                       | Resolves _ =>
                           launching_line :: launch_call
                           :: match launch_result env with
                              | Rejects e => [critical_line e]
                              | Resolves b =>
                                  (process_all REPO_NAMES b
                                     {| files := None; browser := None; opened := 0 |}).2
                                  ++ teardown b
                              end
                       end
             end
  /\ (run fuel dir).1.1
     = Some match REPO_NAMES with
            | [] => 0
            | _ :: _ =>
                match mkdir_result env with
                | Rejects _ => 1
                | Resolves _ =>
                    match launch_result env with
                    | Rejects _ => 1
                    | Resolves b => if resolves (browser_close_result b) then 0 else 1
                    end
                end
            end.
Proof.
  intros Hf. unfold run, final_directory. destruct REPO_NAMES as [| n rest].
  - rewrite (main_without_work fuel (initial dir) t0 Hf). auto.
  - assert (Hne : n :: rest <> []) by discriminate.
    rewrite (main_with_work fuel (initial dir) (n :: rest) t0 Hf Hne).
    destruct (mkdir_result env) as [[] | e] eqn:Hm.
    + destruct (launch_result env) as [b | e] eqn:Hl.
      * rewrite (main_try_launched (n :: rest) (initial dir) b Hm Hl).
        cbn [fst snd].
        rewrite (process_all_directory (n :: rest) b (loop_store (initial dir) b)
                   (default ∅ (dir_after_rm dir))) by reflexivity.
        rewrite (process_all_trace (n :: rest) b (loop_store (initial dir) b)
                   {| files := None; browser := None; opened := 0 |}) by reflexivity.
        split; [reflexivity |]. split; [reflexivity |].
        unfold teardown_completion. destruct (browser_close_result b); reflexivity.
      * unfold try_finally.
        rewrite (main_try_launch_rejects (n :: rest) (initial dir) e Hm Hl).
        cbn [fst snd]. auto.
    + unfold try_finally.
      rewrite (main_try_mkdir_rejects (n :: rest) (initial dir) e Hm).
      cbn [fst snd]. auto.
Qed.

(** X10.  When the removal of the output directory succeeds, what the
    directory held before does not matter: for the same answers of the
    outside systems the run prints the same lines, makes the same calls and
    ends with the same status, and on a non-empty work list it leaves the
    same directory. *)
Theorem run_ignores_prior_content
    (fuel : nat) (dir1 dir2 : option (gset string)) :
  rm_result env = Resolves tt ->
  (run fuel dir1).1.1 = (run fuel dir2).1.1
  /\ (run fuel dir1).2 = (run fuel dir2).2
  /\ (forall repoName rest,
        (fetchRepositoryNames fuel (initial dir1)).1.1 = Normal (repoName :: rest) ->
        (run fuel dir1).1.2 = (run fuel dir2).1.2).
Proof.
  intros Hrm.
  destruct (fetchRepositoryNames_any_store fuel (initial dir1) (initial dir2))
    as [Hc Ht].
  destruct (lister_outcome fuel (initial dir1)) as [[names H1] | H1];
    destruct (lister_outcome fuel (initial dir2)) as [[names' H2] | H2];
    rewrite H1, H2 in Hc; simpl in Hc; try discriminate Hc.
  - injection Hc as <-.
    destruct (run_after_listing fuel dir1 names _ H1) as (Hd1 & Ht1 & Hs1).
    destruct (run_after_listing fuel dir2 names _ H2) as (Hd2 & Ht2 & Hs2).
    rewrite Hs1, Hs2, Ht1, Ht2, Hd1, Hd2, Ht.
    split; [reflexivity |]. split; [reflexivity |].
    intros repoName rest Hn. rewrite H1 in Hn. simpl in Hn.
    injection Hn as ->. unfold final_directory, dir_after_rm. rewrite Hrm.
    reflexivity.
  - unfold run. rewrite (main_unfinished fuel _ _ H1), (main_unfinished fuel _ _ H2).
    simpl. split; [reflexivity |]. split; [exact Ht |].
    intros repoName rest Hn. rewrite H1 in Hn. discriminate Hn.
Qed.

(** A run that ends has got its work list from the lister. *)
Lemma finished_run_has_work_list (fuel : nat) (dir : option (gset string)) :
  (exists st, (run fuel dir).1.1 = Some st) ->
  exists names,
    fetchRepositoryNames fuel (initial dir)
    = (Normal names, initial dir, (fetchRepositoryNames fuel (initial dir)).2).
Proof.
  intros [st Hst]. destruct (lister_outcome fuel (initial dir)) as [H | H]; [exact H |].
  unfold run in Hst. rewrite (main_unfinished fuel _ _ H) in Hst. discriminate Hst.
Qed.

(** X11.  When the removal succeeds in both runs, running the script again
    in the same environment, over the directory the first run left, leaves
    the same directory -- the same set of file names -- and ends with the
    same status. *)
Theorem second_run_leaves_same_directory
    (fuel : nat) (dir : option (gset string)) (st : nat) :
  rm_result env = Resolves tt ->
  (run fuel dir).1.1 = Some st ->
  (run fuel (run fuel dir).1.2).1.2 = (run fuel dir).1.2
  /\ (run fuel (run fuel dir).1.2).1.1 = Some st.
Proof.
  intros Hrm Hst.
  destruct (finished_run_has_work_list fuel dir) as [names H1].
  { exact (ex_intro _ st Hst). }
  destruct (run_after_listing fuel dir names _ H1) as (Hd1 & _ & Hs1).
  rewrite Hd1.
  destruct (fetchRepositoryNames_any_store fuel (initial dir)
              (initial (final_directory names dir))) as [Hc _].
  destruct (lister_outcome fuel (initial (final_directory names dir)))
    as [[names' H2] | H2]; rewrite H1, H2 in Hc; simpl in Hc; try discriminate Hc.
  injection Hc as <-.
  destruct (run_after_listing fuel (final_directory names dir) names _ H2)
    as (Hd2 & _ & Hs2).
  split.
  - rewrite Hd2. unfold final_directory, dir_after_rm. rewrite Hrm.
    destruct names; reflexivity.
  - rewrite Hs2, <- Hs1. exact Hst.
Qed.

(** The lines and calls of the lister. *)
Lemma fetch_loop_events (fuel : nat) (token : string) (page : nat)
    (acc : list string) (s : Store) (ev : Event) :
  ev ∈ (fetch_loop fuel token page acc s).2 -> lister_event ev.
Proof.
  revert page acc. induction fuel as [| fuel IH]; intros page acc; simpl.
  - intros Hin. apply elem_of_nil in Hin. destruct Hin.
  - unfold bind. destruct (page_failure page) as [e |] eqn:Hpf.
    + rewrite (fetch_page_failure token page acc s e Hpf). simpl.
      intros Hin. split_trace Hin; subst ev; unfold lister_event; eauto 8.
    + destruct (page_failure_none page Hpf) as (r & data & Hf & Hok & Hj).
      rewrite (fetch_page_success token page acc s r data Hf Hok Hj).
      destruct (has_next (link r)).
      * specialize (IH (S page) (acc ++ filter_names data)).
        destruct (fetch_loop fuel token (S page) (acc ++ filter_names data) s)
          as [[c s2] t2]. simpl in *.
        intros Hin. apply elem_of_cons in Hin as [-> | Hin]; [| auto].
        unfold lister_event. eauto 8.
      * simpl. intros Hin. split_trace Hin; subst ev. unfold lister_event. eauto 8.
Qed.

Lemma fetchRepositoryNames_events (fuel : nat) (s : Store) (ev : Event) :
  ev ∈ (fetchRepositoryNames fuel s).2 -> lister_event ev.
Proof.
  unfold fetchRepositoryNames, console_log, console_error, emit, bind, ret. simpl.
  destruct (truthy (ORG_PAT_TOKEN env)); simpl.
  - pose proof (fetch_loop_events fuel (default "" (ORG_PAT_TOKEN env)) 1 [] s ev) as Hl.
    destruct (fetch_loop fuel (default "" (ORG_PAT_TOKEN env)) 1 [] s) as [[c s1] t1].
    simpl in Hl. unfold lister_event in *.
    destruct c as [names | e | n |]; simpl; intros Hin;
      (apply elem_of_cons in Hin as [-> | Hin]; [auto |]); auto.
    apply elem_of_app in Hin as [Hin | Hin]; [auto |].
    split_trace Hin. subst ev. do 4 right. eexists. reflexivity.
  - intros Hin. split_trace Hin; subst ev; unfold lister_event; auto.
Qed.

Lemma lister_event_quiet (ev : Event) :
  lister_event ev ->
  is_page_call ev = false /\ is_browser_close ev = false /\ ev <> finished_line
  /\ is_fs_call ev = false.
Proof.
  intros [-> | [-> | [(url & hdrs & ->) | [(e & ->) | (n & ->)]]]];
    repeat split; try reflexivity; intros H; absurd_event H.
Qed.

(** The lines and calls of the loop. *)
Lemma process_all_events (REPO_NAMES : list string) (b : Browser) (s : Store)
    (ev : Event) :
  ev ∈ (process_all REPO_NAMES b s).2 ->
  (is_console ev = true \/ is_page_call ev = true)
  /\ is_browser_close ev = false /\ is_fs_call ev = false.
Proof.
  revert s. induction REPO_NAMES as [| n rest IH]; intros s.
  - simpl. intros Hin. apply elem_of_nil in Hin. destruct Hin.
  - destruct (processRepository_returns n b s) as (s1 & t1 & H1 & _).
    rewrite (process_all_cons n rest b s s1 t1 H1). simpl.
    intros Hin. apply elem_of_app in Hin as [Hin | Hin]; [| eapply IH, Hin].
    revert H1 Hin. unfold_script. simpl.
    page_cases b s; intros H1; injection H1 as <- <-; intros Hin;
      split_trace Hin; subst ev; simpl; auto.
Qed.

(** X12.  When the setup fails on a non-empty work list -- [fs.mkdir]
    rejects, or [puppeteer.launch] does -- the run ends at the top-level
    [catch] with status 1: its last line is the critical error, no page is
    opened, [browser.close()] is not called and the closing line of the
    [finally] block is not printed.  If the removal had succeeded the
    directory holds no file at the end: the old previews are gone and
    nothing has replaced them. *)
Theorem setup_failure_ends_the_run
    (fuel : nat) (dir : option (gset string))
    (repoName : string) (rest : list string) (e : JsError) :
  (fetchRepositoryNames fuel (initial dir)).1.1 = Normal (repoName :: rest) ->
  (mkdir_result env = Rejects e
   \/ (mkdir_result env = Resolves tt /\ launch_result env = Rejects e)) ->
  (run fuel dir).1.1 = Some 1
  /\ (exists pre, (run fuel dir).2 = pre ++ [critical_line e])
  /\ (forall ev, ev ∈ (run fuel dir).2 ->
                 is_page_call ev = false
                 /\ is_browser_close ev = false
                 /\ ev <> finished_line)
  /\ (rm_result env = Resolves tt -> default ∅ (run fuel dir).1.2 = ∅).
Proof.
  intros Hnames Hfail.
  destruct (lister_outcome fuel (initial dir)) as [[names H1] | H1];
    rewrite H1 in Hnames; simpl in Hnames; [| discriminate Hnames].
  injection Hnames as ->.
  destruct (run_after_listing fuel dir (repoName :: rest) _ H1) as (Hd & Ht & Hs).
  rewrite Hd, Ht, Hs. unfold final_directory.
  assert (Hrm : forall ev, ev ∈ rm_report ->
            is_page_call ev = false /\ is_browser_close ev = false
            /\ ev <> finished_line).
  { unfold rm_report. intros ev Hin.
    destruct (rm_result env) as [[] | e'];
      [| destruct (bool_decide (code e' ≠ Some "ENOENT"))];
      split_trace Hin; subst ev; repeat split; discriminate. }
  assert (Hlist : forall ev, ev ∈ (fetchRepositoryNames fuel (initial dir)).2 ->
            is_page_call ev = false /\ is_browser_close ev = false
            /\ ev <> finished_line).
  { intros ev Hin. apply fetchRepositoryNames_events, lister_event_quiet in Hin.
    destruct Hin as (Hp & Hb & Hf & _). auto. }
  destruct Hfail as [Hm | [Hm Hl]]; rewrite Hm; [| rewrite Hl].
  - split; [reflexivity |]. split; [| split].
    + exists ((fetchRepositoryNames fuel (initial dir)).2
              ++ cleaning_line :: rm_call :: rm_report ++ [mkdir_call]).
      rewrite <- !app_assoc. simpl. rewrite <- !app_assoc. reflexivity.
    + intros ev Hin. apply elem_of_app in Hin as [Hin | Hin]; [auto |].
      apply elem_of_cons in Hin as [-> | Hin]; [repeat split; discriminate |].
      apply elem_of_cons in Hin as [-> | Hin]; [repeat split; discriminate |].
      apply elem_of_app in Hin as [Hin | Hin]; [auto |].
      split_trace Hin; subst ev; repeat split; discriminate.
    + intros Hr. unfold dir_after_rm. rewrite Hr. reflexivity.
  - split; [reflexivity |]. split; [| split].
    + exists ((fetchRepositoryNames fuel (initial dir)).2
              ++ cleaning_line :: rm_call :: rm_report
              ++ [mkdir_call; launching_line; launch_call]).
      rewrite <- !app_assoc. simpl. rewrite <- !app_assoc. reflexivity.
    + intros ev Hin. apply elem_of_app in Hin as [Hin | Hin]; [auto |].
      apply elem_of_cons in Hin as [-> | Hin]; [repeat split; discriminate |].
      apply elem_of_cons in Hin as [-> | Hin]; [repeat split; discriminate |].
      apply elem_of_app in Hin as [Hin | Hin]; [auto |].
      split_trace Hin; subst ev; repeat split; discriminate.
    + intros Hr. unfold dir_after_rm. rewrite Hr. reflexivity.
Qed.

(** X13.  Once the browser is launched it is closed exactly once, after
    the whole loop: [browser.close()] is called a single time, every call
    made on a page comes before it, and only console lines follow it. *)
Theorem browser_closed_once_after_the_loop
    (fuel : nat) (dir : option (gset string))
    (repoName : string) (rest : list string) (b : Browser) :
  (fetchRepositoryNames fuel (initial dir)).1.1 = Normal (repoName :: rest) ->
  mkdir_result env = Resolves tt ->
  launch_result env = Resolves b ->
  exists pre post,
    (run fuel dir).2 = pre ++ BrowserClose :: post
    /\ launch_call ∈ pre
    /\ filter is_header pre = map header (repoName :: rest)
    /\ (forall ev, ev ∈ pre -> is_browser_close ev = false)
    /\ (forall ev, ev ∈ post -> is_console ev = true).
Proof.
  intros Hnames Hm Hl.
  destruct (lister_outcome fuel (initial dir)) as [[names H1] | H1];
    rewrite H1 in Hnames; simpl in Hnames; [| discriminate Hnames].
  injection Hnames as ->.
  destruct (run_after_listing fuel dir (repoName :: rest) _ H1) as (_ & Ht & _).
  rewrite Ht, Hm, Hl.
  set (loop := (process_all (repoName :: rest) b
                  {| files := None; browser := None; opened := 0 |}).2).
  exists ((fetchRepositoryNames fuel (initial dir)).2 ++ cleaning_line :: rm_call :: rm_report
          ++ mkdir_call :: launching_line :: launch_call :: loop),
    match browser_close_result b with
    | Resolves _ => [Console LLog ["Browser closed."]; finished_line]
    | Rejects _ => []
    end.
  assert (Hrm : forall ev, ev ∈ rm_report ->
            is_browser_close ev = false /\ is_header ev = false).
  { unfold rm_report. intros ev Hin.
    destruct (rm_result env) as [[] | e'];
      [| destruct (bool_decide (code e' ≠ Some "ENOENT"))];
      split_trace Hin; subst ev; split; reflexivity. }
  split; [| split; [| split; [| split]]].
  - unfold teardown. rewrite <- !app_assoc. simpl. rewrite <- !app_assoc. reflexivity.
  - apply elem_of_app. right. do 2 apply list_elem_of_further.
    apply elem_of_app. right. do 2 apply list_elem_of_further.
    apply list_elem_of_here.
  - destruct (process_all_returns (repoName :: rest) b
                {| files := None; browser := None; opened := 0 |})
      as (s2 & t2 & H2 & _ & _ & Hh).
    pose proof (fetchRepositoryNames_frame fuel (initial dir)) as (_ & Hq & _).
    rewrite filter_app, (listing_only_no_header _ Hq). simpl.
    rewrite !filter_cons. simpl. rewrite filter_app.
    assert (Hnone : filter is_header rm_report = []).
    { unfold rm_report. destruct (rm_result env) as [[] | e']; [reflexivity |].
      destruct (bool_decide (code e' ≠ Some "ENOENT")); reflexivity. }
    rewrite Hnone, !filter_cons. simpl. subst loop. rewrite H2. simpl. exact Hh.
  - intros ev Hin. apply elem_of_app in Hin as [Hin | Hin].
    + apply fetchRepositoryNames_events, lister_event_quiet in Hin.
      destruct Hin as (_ & Hb & _). exact Hb.
    + apply elem_of_cons in Hin as [-> | Hin]; [reflexivity |].
      apply elem_of_cons in Hin as [-> | Hin]; [reflexivity |].
      apply elem_of_app in Hin as [Hin | Hin]; [apply Hrm, Hin |].
      apply elem_of_cons in Hin as [-> | Hin]; [reflexivity |].
      apply elem_of_cons in Hin as [-> | Hin]; [reflexivity |].
      apply elem_of_cons in Hin as [-> | Hin]; [reflexivity |].
      apply process_all_events in Hin. destruct Hin as (_ & Hb & _). exact Hb.
  - intros ev Hin. destruct (browser_close_result b);
      split_trace Hin; subst ev; reflexivity.
Qed.

(** X14.  When the setup succeeds and the screenshot of every repository
    resolves, the output directory holds at the end exactly one file per
    name of the work list, [<name>.png], and nothing else, whatever it held
    before. *)
Theorem all_captured_directory
    (fuel : nat) (dir : option (gset string))
    (repoName : string) (rest : list string) (b : Browser) :
  (fetchRepositoryNames fuel (initial dir)).1.1 = Normal (repoName :: rest) ->
  rm_result env = Resolves tt ->
  mkdir_result env = Resolves tt ->
  launch_result env = Resolves b ->
  (forall i, i < length (repoName :: rest) -> screenshot_resolves (pages b i) = true) ->
  exists final,
    (run fuel dir).1.2 = Some final
    /\ forall f, f ∈ final <->
                 exists n, n ∈ repoName :: rest /\ f = png_path n.
Proof.
  intros Hnames Hrm Hm Hl Hall.
  destruct (lister_outcome fuel (initial dir)) as [[names H1] | H1];
    rewrite H1 in Hnames; simpl in Hnames; [| discriminate Hnames].
  injection Hnames as ->.
  destruct (run_after_listing fuel dir (repoName :: rest) _ H1) as (Hd & _ & _).
  rewrite Hd. unfold final_directory, dir_after_rm. rewrite Hm, Hl, Hrm.
  eexists. split; [reflexivity |].
  intros f. rewrite elem_of_union, elem_of_written. simpl default. split.
  - intros [(i & n & Hi & _ & Hf) | H]; [| apply elem_of_empty in H; destruct H].
    exists n. split; [| exact Hf]. apply list_elem_of_lookup. eauto.
  - intros (n & Hin & Hf). left.
    apply list_elem_of_lookup in Hin as [i Hi]. exists i, n.
    split; [exact Hi |]. split; [| exact Hf].
    apply Hall. apply lookup_lt_Some in Hi. exact Hi.
Qed.

(** X15.  When the setup and the teardown succeed and no screenshot
    resolves -- every repository fails to load, times out or throws -- the
    run still ends with status 0 and leaves an empty output directory: the
    previews of the earlier run are gone. *)
Theorem all_skipped_empties_directory
    (fuel : nat) (dir : option (gset string))
    (repoName : string) (rest : list string) (b : Browser) :
  (fetchRepositoryNames fuel (initial dir)).1.1 = Normal (repoName :: rest) ->
  rm_result env = Resolves tt ->
  mkdir_result env = Resolves tt ->
  launch_result env = Resolves b ->
  browser_close_result b = Resolves tt ->
  (forall i, i < length (repoName :: rest) -> screenshot_resolves (pages b i) = false) ->
  (run fuel dir).1 = (Some 0, Some ∅).
Proof.
  intros Hnames Hrm Hm Hl Hc Hnone.
  destruct (lister_outcome fuel (initial dir)) as [[names H1] | H1];
    rewrite H1 in Hnames; simpl in Hnames; [| discriminate Hnames].
  injection Hnames as ->.
  destruct (run_after_listing fuel dir (repoName :: rest) _ H1) as (Hd & _ & Hs).
  destruct (run fuel dir) as [[st final] t]. cbn [fst snd] in *.
  rewrite Hd, Hs. unfold final_directory, dir_after_rm. rewrite Hm, Hl, Hrm, Hc.
  cbn [resolves default]. f_equal. f_equal.
  apply set_eq. intros f. rewrite elem_of_union, elem_of_written.
  split; [| intros H; apply elem_of_empty in H; destruct H].
  intros [(i & n & Hi & Hr & _) | H]; [| exact H].
  rewrite Hnone in Hr; [discriminate Hr |].
  apply lookup_lt_Some in Hi. exact Hi.
Qed.


End Script.

(** ** The properties on the sample environments *)

(** C1 on the browser whose second page context times out. *)
Lemma processRepository_exception_leaves_page_open_witness :
  exists s' t,
    processRepository Sample.dirname Sample.join "C"
      (Sample.chrome (Resolves tt))
      {| files := None; browser := None; opened := 1 |} = (Normal tt, s', t)
    /\ NewPage ∈ t
    /\ fatal_line "C" Sample.timeout_error ∈ t
    /\ forall p, PageClose p ∉ t.
Proof.
  apply (processRepository_exception_leaves_page_open Sample.dirname Sample.join
           "C" (Sample.chrome (Resolves tt))
           {| files := None; browser := None; opened := 1 |} Sample.timeout_error).
  - reflexivity.
  - right. left. split; reflexivity.
Defined.

(** C2, as it was stated, fails: when [fs.rm] cannot unlink a file, [removeDirectory]
    swallows the error, [fs.mkdir] accepts the existing directory, and a
    file of an earlier run is still there after the captures. *)
Lemma leftover_survives_failed_removal :
  (run Sample.dirname Sample.join Sample.env_rm_denied 3
     (Some {[ Sample.old_file ]})).1.1 = Some 0
  /\ Screenshot 0 "/repo/previews/A.png" false viewport_clip
     ∈ (run Sample.dirname Sample.join Sample.env_rm_denied 3
          (Some {[ Sample.old_file ]})).2
  /\ Sample.old_file
     ∈ default ∅ (run Sample.dirname Sample.join Sample.env_rm_denied 3
                    (Some {[ Sample.old_file ]})).1.2
  /\ forall p fullPage clip,
       Screenshot p Sample.old_file fullPage clip
       ∉ (run Sample.dirname Sample.join Sample.env_rm_denied 3
            (Some {[ Sample.old_file ]})).2.
Proof.
  assert (Hrun :
    run Sample.dirname Sample.join Sample.env_rm_denied 3 (Some {[ Sample.old_file ]})
    = (Some 0,
       Some ({[ "/repo/previews/A.png" ]} ∪ ({[ Sample.old_file ]} : gset string)),
       Sample.listed
       ++ [Console LLog ["Cleaning up previous screenshots and setting up output directory..."];
           FsRm "/repo/previews" true true;
           Console LError ["Error removing directory /repo/previews:";
                           "EPERM: operation not permitted, unlink '/repo/previews/old.png'"];
           FsMkdir "/repo/previews" true;
           Console LLog ["Launching headless browser..."];
           Launch true ["--no-sandbox"; "--disable-setuid-sandbox";
                        "--disable-dev-shm-usage"; "--disable-gpu"];
           header "A"; NewPage; SetViewport 0 1200 800;
           Console LLog ["Navigating to live URL: https://dapalms1.github.io/A/"];
           Goto 0 "https://dapalms1.github.io/A/" "networkidle2" 60000%N;
           Console LLog ["Waiting 3000ms for client-side rendering..."];
           SetTimeout 3000;
           Console LLog ["Taking screenshot and saving to /repo/previews/A.png..."];
           Screenshot 0 "/repo/previews/A.png" false viewport_clip;
           PageClose 0;
           Console LLog ["SUCCESS: Live application thumbnail saved for A."];
           header "C"; NewPage; SetViewport 1 1200 800;
           Console LLog ["Navigating to live URL: https://dapalms1.github.io/C/"];
           Goto 1 "https://dapalms1.github.io/C/" "networkidle2" 60000%N;
           fatal_line "C" Sample.timeout_error;
           BrowserClose;
           Console LLog ["Browser closed."];
           Console LLog [String newline "--- Script finished ---"]])).
  { vm_compute. reflexivity. }
  rewrite Hrun. simpl. split; [reflexivity |]. split; [| split].
  - repeat first [ apply list_elem_of_here | apply list_elem_of_further ].
  - apply elem_of_union. right. apply elem_of_singleton. reflexivity.
  - intros p fullPage clip Hin.
    repeat (apply elem_of_cons in Hin as [Hin | Hin]; [discriminate Hin |]).
    apply elem_of_nil in Hin. exact Hin.
Qed.

(** C2, as amended, on a run whose removal succeeds over a directory that
    held an old file. *)
Lemma output_directory_fresh_when_removal_succeeds_witness :
  rm_result Sample.env_ok = Resolves tt
  /\ exists st final t1,
       run Sample.dirname Sample.join Sample.env_ok 3 (Some {[ Sample.old_file ]})
       = (Some st, final,
          Sample.listed
          ++ cleaning_line :: rm_call Sample.dirname Sample.join
             :: rm_report Sample.dirname Sample.join Sample.env_ok
             ++ mkdir_call Sample.dirname Sample.join :: t1)
       /\ rm_report Sample.dirname Sample.join Sample.env_ok
          = [Console LLog ["Successfully removed directory: /repo/previews"]]
       /\ forall f,
            f ∈ default ∅ final ->
            exists repoName p,
              repoName ∈ ["A"; "C"]
              /\ f = png_path Sample.dirname Sample.join repoName
              /\ Screenshot p f false viewport_clip ∈ t1.
Proof.
  split; [reflexivity |].
  destruct (output_directory_fresh_when_removal_succeeds
              Sample.dirname Sample.join Sample.env_ok 3
              (Some {[ Sample.old_file ]}) ["A"; "C"] Sample.listed)
    as (st & final & t1 & Hrun & _ & Hrep & _ & Hfiles).
  - reflexivity.
  - discriminate.
  - exists st, final, t1. split; [exact Hrun |].
    split; [exact (Hrep eq_refl) | exact (Hfiles eq_refl)].
Defined.


(** C4 on the two-page listing. *)
Lemma listing_filter_policy_witness :
  fetchRepositoryNames Sample.env_ok 3 (initial None)
  = (Normal ["A"; "C"], initial None, Sample.listed)
  /\ (forall n, n ∈ ["A"; "C"] <->
                exists repo, returned Sample.env_ok Sample.listed repo
                             /\ login (owner repo) = "DapaLMS1"
                             /\ name repo <> "Catalog_of_Repos"
                             /\ name repo = n)
  /\ "Catalog_of_Repos" ∉ ["A"; "C"].
Proof.
  assert (Hrun : fetchRepositoryNames Sample.env_ok 3 (initial None)
                 = (Normal ["A"; "C"], initial None, Sample.listed))
    by reflexivity.
  split; [exact Hrun |].
  destruct (listing_filter_policy Sample.env_ok 3 _ _ _ _ Hrun) as (_ & Hiff & Hnot).
  split; [exact Hiff | exact Hnot].
Defined.

(** C5 on a run without the credential over a directory that holds a file. *)
Lemma missing_credential_is_a_clean_stop_witness :
  ORG_PAT_TOKEN Sample.env_no_token = None
  /\ run Sample.dirname Sample.join Sample.env_no_token 3 (Some {[ Sample.old_file ]})
     = (Some 0, Some {[ Sample.old_file ]},
        [fetching_line;
         Console LError ["FATAL: ORG_PAT_TOKEN environment variable not set. Cannot fetch dynamic repository list."];
         Console LLog ["No repositories found. Exiting."]]).
Proof.
  split; [reflexivity |].
  destruct (missing_credential_is_a_clean_stop Sample.dirname Sample.join
              Sample.env_no_token 3 (Some {[ Sample.old_file ]}) eq_refl)
    as (_ & Hrun & _).
  exact Hrun.
Defined.

(** C6 on the two-page listing: the first page carries the marker, the
    second does not. *)
Lemma pagination_follows_next_marker_witness :
  ORG_PAT_TOKEN Sample.env_ok = Some "tok"
  /\ next_marker Sample.page1
  /\ ~ next_marker Sample.page2
  /\ fetchRepositoryNames Sample.env_ok 3 (initial None)
     = (Normal (names_of_pages Sample.data 1 2), initial None,
        fetching_line :: requests "tok" 1 2
        ++ [found_line (length (names_of_pages Sample.data 1 2))]).
Proof.
  assert (Hmarker : next_marker Sample.page1).
  { exists Sample.next_link,
      "<https://api.github.com/user/repos?per_page=100&page=2>; ", "".
    split; reflexivity. }
  assert (Hlast : ~ next_marker Sample.page2).
  { intros (l & pre & post & Hl & _). discriminate Hl. }
  split; [reflexivity |]. split; [exact Hmarker |]. split; [exact Hlast |].
  destruct (pagination_follows_next_marker Sample.env_ok "tok" 3 (initial None)
              eq_refl eq_refl) as (Hpages & _).
  apply (Hpages 1 (Sample.resp Sample.page2) Sample.data).
  - intros k Hk. destruct k as [| [| [| k]]]; try lia; repeat split; reflexivity.
  - intros k Hk. destruct k as [| [| k]]; try lia. exact Hmarker.
  - exact Hlast.
  - lia.
Defined.

(** C7 on a listing whose second page answers 500. *)
Lemma listing_failure_stops_pagination_witness :
  fetch Sample.env_listing_down (api_url 2) = Resolves Sample.page2_down
  /\ 299 < status Sample.page2_down
  /\ fetchRepositoryNames Sample.env_listing_down 3 (initial None)
     = (Normal ["A"], initial None,
        fetching_line :: requests "tok" 1 2
        ++ [fetch_error_line
              (Error "GitHub API HTTP error! Status: 500 - Internal Server Error");
            found_line 1]).
Proof.
  split; [reflexivity |]. split; [simpl; lia |].
  apply (listing_failure_stops_pagination Sample.env_listing_down "tok" 3 (initial None)
           1 (Sample.resp Sample.page2_down) Sample.data
           (Error "GitHub API HTTP error! Status: 500 - Internal Server Error")).
  - reflexivity.
  - reflexivity.
  - intros k Hk. destruct k as [| [| k]]; try lia. split.
    + repeat split; reflexivity.
    + exists Sample.next_link,
        "<https://api.github.com/user/repos?per_page=100&page=2>; ", "".
      split; reflexivity.
  - right. exists Sample.page2_down. split; [reflexivity |].
    split; [right; simpl; lia | reflexivity].
  - lia.
Defined.

(** C8 on a page context that answers 404. *)
Lemma failed_navigation_is_skipped_witness :
  exists s1 t1,
    processRepository Sample.dirname Sample.join "D" (Sample.chrome (Resolves tt))
      {| files := Some ∅; browser := None; opened := 2 |} = (Normal tt, s1, t1)
    /\ filter is_screenshot t1 = []
    /\ files s1 = Some ∅
    /\ PageClose 2 ∈ t1.
Proof.
  destruct (failed_navigation_is_skipped Sample.dirname Sample.join "D" ["E"]
              (Sample.chrome (Resolves tt))
              {| files := Some ∅; browser := None; opened := 2 |}
              (Some {| page_ok := false; page_status := 404 |})
              eq_refl eq_refl eq_refl
              (or_intror (ex_intro _ {| page_ok := false; page_status := 404 |}
                            (conj eq_refl eq_refl))))
    as (s1 & t1 & Hrun & _ & Hnone & Hfiles & Hclose & _).
  exists s1, t1. repeat split; assumption.
Defined.

(** C9 on a page context that captures. *)
Lemma capture_url_viewport_and_clip_witness :
  exists s' t_end,
    processRepository Sample.dirname Sample.join "A" (Sample.chrome (Resolves tt))
      (initial (Some ∅))
    = (Normal tt, s',
       [header "A"; NewPage; SetViewport 0 1200 800;
        Console LLog ["Navigating to live URL: https://dapalms1.github.io/A/"];
        Goto 0 "https://dapalms1.github.io/A/" "networkidle2" 60000%N] ++ t_end)
    /\ exists t_fin,
         t_end
         = [Console LLog ["Waiting 3000ms for client-side rendering..."];
            SetTimeout 3000;
            Console LLog ["Taking screenshot and saving to /repo/previews/A.png..."];
            Screenshot 0 "/repo/previews/A.png" false
              {| clip_x := 0; clip_y := 0; clip_width := 1200; clip_height := 800 |}]
           ++ t_fin
         /\ files s' = Some ({[ "/repo/previews/A.png" ]} ∪ ∅).
Proof.
  destruct (capture_url_viewport_and_clip Sample.dirname Sample.join "A"
              (Sample.chrome (Resolves tt)) (initial (Some ∅)) eq_refl eq_refl)
    as (s' & t_end & Hrun & Hshot & _).
  exists s', t_end. split; [exact Hrun |].
  destruct (Hshot {| page_ok := true; page_status := 200 |} eq_refl eq_refl)
    as (t_fin & Hend & Hfile).
  exists t_fin. split; [exact Hend | exact (Hfile eq_refl)].
Defined.

(** C10, as it was stated, fails: when [browser.close()] rejects in the
    [finally] block the process ends with status 1 although no exception
    has reached the top-level [catch]. *)
Lemma rejected_teardown_exits_nonzero_without_catch :
  mkdir_result Sample.env_close_fails = Resolves tt
  /\ launch_result Sample.env_close_fails
     = Resolves (Sample.chrome (Rejects Sample.disconnected))
  /\ (run Sample.dirname Sample.join Sample.env_close_fails 3 None).1.1 = Some 1
  /\ forall e,
       critical_line e
       ∉ (run Sample.dirname Sample.join Sample.env_close_fails 3 None).2.
Proof.
  split; [reflexivity |]. split; [reflexivity |]. split; [reflexivity |].
  intros e Hin. vm_compute in Hin.
  repeat (apply elem_of_cons in Hin as [Hin | Hin]; [discriminate Hin |]).
  apply elem_of_nil in Hin. exact Hin.
Qed.

(** C10, as amended, on a run whose setup and teardown succeed while one
    repository times out. *)
Lemma exit_status_policy_witness :
  fetchRepositoryNames Sample.env_ok 3 (initial None)
  = (Normal ["A"; "C"], initial None, Sample.listed)
  /\ mkdir_call Sample.dirname Sample.join
     ∈ (run Sample.dirname Sample.join Sample.env_ok 3 None).2
  /\ exists st,
       (run Sample.dirname Sample.join Sample.env_ok 3 None).1.1 = Some st
       /\ st = 0.
Proof.
  assert (Hrun : fetchRepositoryNames Sample.env_ok 3 (initial None)
                 = (Normal ["A"; "C"], initial None, Sample.listed))
    by reflexivity.
  split; [exact Hrun |].
  destruct (exit_status_policy Sample.dirname Sample.join Sample.env_ok 3 None
              ["A"; "C"] Sample.listed Hrun)
    as (_ & Hmkdir & st & Hst & _ & _ & Hzero).
  split; [apply Hmkdir; discriminate |].
  exists st. split; [exact Hst |].
  apply (Hzero (Sample.chrome (Resolves tt))); reflexivity.
Defined.

(** ** The further properties on the sample environments *)

(** X1 on the two-page listing. *)
Lemma lister_requests_consecutive_pages_witness :
  ORG_PAT_TOKEN Sample.env_ok = Some "tok"
  /\ exists m,
       m <= 3
       /\ filter is_fetch (fetchRepositoryNames Sample.env_ok 3 (initial None)).2
          = map (fun k => Fetch (api_url k) Sample.headers) (seq 1 m).
Proof.
  split; [reflexivity |].
  destruct (lister_requests_consecutive_pages Sample.env_ok "tok" 3 (initial None)
              eq_refl eq_refl) as (m & Hm & Hreq & _).
  exists m. split; [exact Hm | exact Hreq].
Defined.

(** X3 on the endpoint that always serves the marker. *)
Lemma lister_has_no_page_limit_witness :
  next_marker Sample.page1
  /\ fetchRepositoryNames Sample.env_endless 5 (initial None)
     = (Unfinished, initial None, fetching_line :: requests "tok" 1 5).
Proof.
  assert (Hmarker : next_marker Sample.page1).
  { exists Sample.next_link,
      "<https://api.github.com/user/repos?per_page=100&page=2>; ", "".
    split; reflexivity. }
  split; [exact Hmarker |].
  apply (lister_has_no_page_limit Sample.env_endless "tok"
           (fun _ => Sample.page1) (fun _ => Sample.data 1) 5 (initial None)).
  - reflexivity.
  - reflexivity.
  - intros k _. split; [repeat split; reflexivity | exact Hmarker].
Defined.

(** X4 on a second page with status 200, the marker and a body that is not
    JSON. *)
Lemma unusable_body_stops_pagination_witness :
  ok Sample.page2_garbled = true
  /\ next_marker Sample.page2_garbled
  /\ fetchRepositoryNames Sample.env_garbled 3 (initial None)
     = (Normal ["A"], initial None,
        fetching_line :: requests "tok" 1 2
        ++ [fetch_error_line Sample.syntax_error; found_line 1]).
Proof.
  assert (Hmarker : forall r, link r = Some Sample.next_link -> next_marker r).
  { intros r Hr. exists Sample.next_link,
      "<https://api.github.com/user/repos?per_page=100&page=2>; ", "".
    split; [exact Hr | reflexivity]. }
  split; [reflexivity |]. split; [apply Hmarker; reflexivity |].
  apply (unusable_body_stops_pagination Sample.env_garbled "tok" 3 (initial None)
           1 (Sample.resp Sample.page2_garbled) Sample.data
           Sample.page2_garbled Sample.syntax_error).
  - reflexivity.
  - reflexivity.
  - intros k Hk. destruct k as [| [| k]]; try lia.
    split; [repeat split; reflexivity | apply Hmarker; reflexivity].
  - reflexivity.
  - reflexivity.
  - left. reflexivity.
  - lia.
Defined.

(** X5 on an empty credential, over a directory that holds a file. *)
Lemma empty_credential_counts_as_missing_witness :
  ORG_PAT_TOKEN Sample.env_empty_token = Some ""
  /\ (run Sample.dirname Sample.join Sample.env_empty_token 3
        (Some {[ Sample.old_file ]})).1
     = (Some 0, Some {[ Sample.old_file ]}).
Proof.
  split; [reflexivity |].
  rewrite (empty_credential_counts_as_missing Sample.dirname Sample.join
             Sample.env_empty_token 3 (Some {[ Sample.old_file ]}) eq_refl).
  reflexivity.
Defined.

(** X6 on an endpoint that is down, over a directory that holds a file. *)
Lemma empty_listing_leaves_directory_witness :
  (fetchRepositoryNames Sample.env_outage 3 (initial (Some {[ Sample.old_file ]}))).1.1
  = Normal []
  /\ (run Sample.dirname Sample.join Sample.env_outage 3
        (Some {[ Sample.old_file ]})).1
     = (Some 0, Some {[ Sample.old_file ]}).
Proof.
  split; [reflexivity |].
  destruct (empty_listing_leaves_directory Sample.dirname Sample.join
              Sample.env_outage 3 (Some {[ Sample.old_file ]}) eq_refl)
    as (Hrun & _).
  exact Hrun.
Defined.

(** X8 on a page context that captures and then fails to close. *)
Lemma capture_saved_but_reported_fatal_witness :
  screenshot_resolves Sample.close_fails = true
  /\ png_path Sample.dirname Sample.join "A"
     ∈ default ∅ (files (processRepository Sample.dirname Sample.join "A"
                           (Sample.uniform Sample.close_fails)
                           (initial (Some ∅))).1.2)
  /\ fatal_line "A" Sample.disconnected
     ∈ (processRepository Sample.dirname Sample.join "A"
          (Sample.uniform Sample.close_fails) (initial (Some ∅))).2.
Proof.
  split; [reflexivity |].
  destruct (capture_saved_but_reported_fatal Sample.dirname Sample.join "A"
              (Sample.uniform Sample.close_fails) (initial (Some ∅))
              Sample.disconnected eq_refl eq_refl)
    as (Hfile & Hfatal & _).
  split; [exact Hfile | exact Hfatal].
Defined.

(** X9 on three names -- a capture, a timeout and a 404 -- over a
    directory that holds a file. *)
Lemma loop_writes_exactly_the_resolved_captures_witness :
  exists final,
    files (process_all Sample.dirname Sample.join ["A"; "C"; "D"]
             (Sample.chrome (Resolves tt))
             (initial (Some {[ Sample.old_file ]}))).1.2 = Some final
    /\ {[ Sample.old_file ]} ⊆ final.
Proof.
  destruct (loop_writes_exactly_the_resolved_captures Sample.dirname Sample.join
              ["A"; "C"; "D"] (Sample.chrome (Resolves tt))
              (initial (Some {[ Sample.old_file ]})) {[ Sample.old_file ]} eq_refl)
    as (final & Hfinal & Hkeep & _).
  exists final. split; [exact Hfinal | exact Hkeep].
Defined.

(** X10 on two runs of the sample environment, over no directory and over
    a directory that holds a file. *)
Lemma run_ignores_prior_content_witness :
  rm_result Sample.env_ok = Resolves tt
  /\ (run Sample.dirname Sample.join Sample.env_ok 3 None).2
     = (run Sample.dirname Sample.join Sample.env_ok 3 (Some {[ Sample.old_file ]})).2
  /\ (run Sample.dirname Sample.join Sample.env_ok 3 None).1.2
     = (run Sample.dirname Sample.join Sample.env_ok 3 (Some {[ Sample.old_file ]})).1.2.
Proof.
  split; [reflexivity |].
  destruct (run_ignores_prior_content Sample.dirname Sample.join Sample.env_ok 3
              None (Some {[ Sample.old_file ]}) eq_refl)
    as (_ & Htrace & Hdir).
  split; [exact Htrace |]. exact (Hdir "A" ["C"] eq_refl).
Defined.

(** X11 on the sample run, over a directory that holds a file. *)
Lemma second_run_leaves_same_directory_witness :
  rm_result Sample.env_ok = Resolves tt
  /\ (run Sample.dirname Sample.join Sample.env_ok 3
        (Some {[ Sample.old_file ]})).1.1 = Some 0
  /\ (run Sample.dirname Sample.join Sample.env_ok 3
        (run Sample.dirname Sample.join Sample.env_ok 3
           (Some {[ Sample.old_file ]})).1.2).1.2
     = (run Sample.dirname Sample.join Sample.env_ok 3
          (Some {[ Sample.old_file ]})).1.2.
Proof.
  assert (Hst : (run Sample.dirname Sample.join Sample.env_ok 3
                   (Some {[ Sample.old_file ]})).1.1 = Some 0)
    by (vm_compute; reflexivity).
  split; [reflexivity |]. split; [exact Hst |].
  destruct (second_run_leaves_same_directory Sample.dirname Sample.join
              Sample.env_ok 3 (Some {[ Sample.old_file ]}) 0 eq_refl Hst)
    as (Hsame & _).
  exact Hsame.
Defined.

(** X12 on a run whose [fs.mkdir] finds no space left. *)
Lemma setup_failure_ends_the_run_witness :
  mkdir_result Sample.env_mkdir_fails = Rejects Sample.no_space
  /\ (run Sample.dirname Sample.join Sample.env_mkdir_fails 3
        (Some {[ Sample.old_file ]})).1.1 = Some 1
  /\ default ∅ (run Sample.dirname Sample.join Sample.env_mkdir_fails 3
                  (Some {[ Sample.old_file ]})).1.2 = ∅.
Proof.
  split; [reflexivity |].
  destruct (setup_failure_ends_the_run Sample.dirname Sample.join
              Sample.env_mkdir_fails 3 (Some {[ Sample.old_file ]})
              "A" ["C"] Sample.no_space eq_refl (or_introl eq_refl))
    as (Hst & _ & _ & Hdir).
  split; [exact Hst | exact (Hdir eq_refl)].
Defined.

(** X13 on the sample run. *)
Lemma browser_closed_once_after_the_loop_witness :
  launch_result Sample.env_ok = Resolves (Sample.chrome (Resolves tt))
  /\ exists pre post,
       (run Sample.dirname Sample.join Sample.env_ok 3 None).2
       = pre ++ BrowserClose :: post
       /\ (forall ev, ev ∈ pre -> is_browser_close ev = false)
       /\ (forall ev, ev ∈ post -> is_console ev = true).
Proof.
  split; [reflexivity |].
  destruct (browser_closed_once_after_the_loop Sample.dirname Sample.join
              Sample.env_ok 3 None "A" ["C"] (Sample.chrome (Resolves tt))
              eq_refl eq_refl eq_refl)
    as (pre & post & Ht & _ & _ & Hpre & Hpost).
  exists pre, post. split; [exact Ht |]. split; [exact Hpre | exact Hpost].
Defined.

(** X14 on a run in which every repository is captured. *)
Lemma all_captured_directory_witness :
  (forall i, i < 2 -> screenshot_resolves (pages (Sample.uniform Sample.captured) i) = true)
  /\ exists final,
       (run Sample.dirname Sample.join Sample.env_all_captured 3
          (Some {[ Sample.old_file ]})).1.2 = Some final
       /\ forall f, f ∈ final <->
                    exists n, n ∈ ["A"; "C"]
                              /\ f = png_path Sample.dirname Sample.join n.
Proof.
  split; [intros i _; reflexivity |].
  apply (all_captured_directory Sample.dirname Sample.join Sample.env_all_captured 3
           (Some {[ Sample.old_file ]}) "A" ["C"] (Sample.uniform Sample.captured)).
  - reflexivity.
  - reflexivity.
  - reflexivity.
  - reflexivity.
  - intros i _. reflexivity.
Defined.

(** X15 on a run in which every repository answers 404. *)
Lemma all_skipped_empties_directory_witness :
  (forall i, i < 2 -> screenshot_resolves (pages (Sample.uniform Sample.not_found) i) = false)
  /\ (run Sample.dirname Sample.join Sample.env_all_not_found 3
        (Some {[ Sample.old_file ]})).1 = (Some 0, Some ∅).
Proof.
  split; [intros i _; reflexivity |].
  apply (all_skipped_empties_directory Sample.dirname Sample.join
           Sample.env_all_not_found 3 (Some {[ Sample.old_file ]}) "A" ["C"]
           (Sample.uniform Sample.not_found)).
  - reflexivity.
  - reflexivity.
  - reflexivity.
  - reflexivity.
  - reflexivity.
  - intros i _. reflexivity.
Defined.
